(** * Project-Khepri: the operation library and its tool wrappers

    A shallow embedding of [main.py] (the operation library that
    [coder.py] imports as [tools]) and of [coder.py] (the twelve tools
    registered on the FastMCP server).

    Python values are embedded as the type [value]; a Python [dict] is an
    association list in insertion order.  Every call that leaves the
    program ([subprocess.run], [open], [requests.get], [os.listdir], ...)
    is a field of the class [Host]: it takes the state of the machine and
    gives back either a result or a raised exception, and a new state.
    The library functions are written once, over any [Host].  The module
    [Posix] gives one [Host]: files and directories in a finite map. *)

From Stdlib Require Import ZArith String Ascii List.
From stdpp Require Import base option strings gmap pretty.
Import ListNotations.
Local Open Scope string_scope.
Local Open Scope Z_scope.
Set Warnings "-register-all".
Set Default Goal Selector "!".

(** ** Python values *)

(** A [str] is a sequence of characters; the embedding keeps characters
    below code point 256, one [ascii] each.  A [float] is only ever
    carried from [os.stat] into an envelope, never computed on, and is
    represented by its [repr] text, which determines it. *)
Inductive value : Type :=
| VStr (s : string)
| VInt (z : Z)
| VFloat (repr : string)
| VBool (b : bool)
| VList (l : list value)
| VDict (d : list (string * value)).

Definition dict : Type := list (string * value).

(** [d.get(k)]: the value stored under key [k], if any. *)
Fixpoint dict_get (k : string) (d : dict) : option value :=
  match d with
  | [] => None
  | (k', v) :: rest => if String.eqb k k' then Some v else dict_get k rest
  end.

Definition dict_keys (d : dict) : list string := map fst d.

(** The characters that a string literal here cannot hold directly. *)
Definition LF : string := String "010"%char EmptyString.
Definition DQ : string := String "034"%char EmptyString.
Definition BSL : string := String "092"%char EmptyString.

(** ** Exceptions and the monad of effects *)

(** An instance of [Exception]: its class name and [str(e)]. *)
Record exn : Type := Exn { exn_type : string; exn_msg : string }.

Inductive res (A : Type) : Type :=
| Ret (a : A)
| Raise (e : exn).
Arguments Ret {A} a.
Arguments Raise {A} e.

Definition M (W A : Type) : Type := W -> res A * W.

Definition ret {W A} (a : A) : M W A := fun w => (Ret a, w).

Definition bind {W A B} (m : M W A) (k : A -> M W B) : M W B :=
  fun w =>
    match m w with
    | (Ret a, w') => k a w'
    | (Raise e, w') => (Raise e, w')
    end.

(** [try: body  except Exception as e: handler(e)] *)
Definition try_except {W A} (body : M W A) (handler : exn -> M W A) : M W A :=
  fun w =>
    match body w with
    | (Ret a, w') => (Ret a, w')
    | (Raise e, w') => handler e w'
    end.

Declare Scope py_scope.
Delimit Scope py_scope with py.
Notation "x <- c1 ;; c2" := (bind c1 (fun x => c2))
  (at level 100, c1 at next level, right associativity) : py_scope.
Notation "c1 ;;; c2" := (bind c1 (fun _ => c2))
  (at level 100, right associativity) : py_scope.
Local Open Scope py_scope.

(** ** What the program asks of the machine *)

Record CompletedProcess : Type :=
  { cp_stdout : string; cp_stderr : string; cp_returncode : Z }.

Record Response : Type := { status_code : Z; text : string }.

Record stat_result : Type :=
  { st_size : Z; st_mtime : string; st_ctime : string }.

Class Host (W : Type) : Type :=
  { handle : Type;
    (* subprocess.run(command, shell=True, capture_output=True, text=True) *)
    subprocess_run : string -> M W CompletedProcess;
    (* open(file_path, mode, encoding='utf-8') *)
    py_open : string -> string -> M W handle;
    (* f.read(), f.write(content), and the close on leaving [with] *)
    f_read : handle -> M W string;
    f_write : handle -> string -> M W unit;
    f_close : handle -> M W unit;
    (* os.environ.get(key): a lookup, it cannot fail *)
    environ_get : string -> W -> option string;
    (* requests.get(url, params=...) *)
    requests_get : string -> list (string * string) -> M W Response;
    (* Path(p).mkdir(exist_ok=True) *)
    path_mkdir : string -> M W unit;
    (* Path(p).exists() *)
    path_exists : string -> M W bool;
    os_getcwd : M W string;
    os_listdir : string -> M W (list string);
    os_stat : string -> M W stat_result;
    (* os.path.isdir, os.path.isfile: never raise *)
    os_path_isdir : string -> W -> bool;
    os_path_isfile : string -> W -> bool;
    (* os.makedirs(p, exist_ok=True) *)
    os_makedirs : string -> M W unit;
    (* print(s) *)
    py_print : string -> M W unit }.

(** [with f: body]: the file is closed on the way out, also when the
    body raised; an exception raised by the close is the one that leaves. *)
Definition py_with `{Host W} {A} (f : handle) (body : M W A) : M W A :=
  fun w =>
    match body w with
    | (Ret a, w1) =>
        match f_close f w1 with
        | (Ret _, w2) => (Ret a, w2)
        | (Raise e, w2) => (Raise e, w2)
        end
    | (Raise e, w1) =>
        match f_close f w1 with
        | (Ret _, w2) => (Raise e, w2)
        | (Raise e', w2) => (Raise e', w2)
        end
    end.

(** [os.environ.get(key, default)] *)
Definition environ_get_default `{Host W} (key dflt : string) : M W string :=
  fun w => (Ret (default dflt (environ_get key w)), w).

(** ** The operation library ([main.py]) *)

Section Library.
Context {W : Type} `{HostW : Host W}.

Definition run_command (command : string) : M W dict :=
  try_except
    (result <- subprocess_run command ;;
     ret [("stdout", VStr (cp_stdout result));
          ("stderr", VStr (cp_stderr result));
          ("exit_code", VInt (cp_returncode result))])
    (fun e =>
       ret [("stdout", VStr EmptyString);
            ("stderr", VStr (exn_msg e));
            ("exit_code", VInt 1)]).

Definition read_file (file_path : string) : M W dict :=
  try_except
    (f <- py_open file_path "r" ;;
     content <- py_with f (f_read f) ;;
     ret [("content", VStr content); ("success", VBool true)])
    (fun e =>
       ret [("content", VStr EmptyString);
            ("error", VStr (exn_msg e));
            ("success", VBool false)]).

Definition write_file (file_path content mode : string) : M W dict :=
  try_except
    (f <- py_open file_path mode ;;
     py_with f (f_write f content) ;;;
     ret [("success", VBool true)])
    (fun e => ret [("success", VBool false); ("error", VStr (exn_msg e))]).

Definition append_file (file_path content : string) : M W dict :=
  write_file file_path content "a".

Definition web_search (query : string) : M W dict :=
  try_except
    (key <- environ_get_default "GOOGLE_API_KEY" EmptyString ;;
     cx <- environ_get_default "GOOGLE_SEARCH_ENGINE_ID" EmptyString ;;
     response <- requests_get "https://www.googleapis.com/customsearch/v1"
                   [("q", query); ("key", key); ("cx", cx)] ;;
     ret [("results", VStr (text response)); ("success", VBool true)])
    (fun e =>
       ret [("results", VStr EmptyString);
            ("error", VStr (exn_msg e));
            ("success", VBool false)]).

Definition web_fetch (url : string) : M W dict :=
  try_except
    (response <- requests_get url [] ;;
     ret [("content", VStr (text response)); ("success", VBool true)])
    (fun e =>
       ret [("content", VStr EmptyString);
            ("error", VStr (exn_msg e));
            ("success", VBool false)]).

(** [Path("project_plan")] and [Path("project_plan") / "action_plan.md"],
    as [str] renders them. *)
Definition plan_dir : string := "project_plan".
Definition plan_file : string := plan_dir +:+ "/" +:+ "action_plan.md".

Definition plan_header (current_dir : string) : string :=
  "# Project Action Plan" +:+ LF +:+ LF +:+
  "Working Directory: " +:+ current_dir +:+ LF +:+ LF.

Definition create_project_plan (plan_content : string) : M W dict :=
  path_mkdir plan_dir ;;;
  current_dir <- os_getcwd ;;
  let plan_with_dir := plan_header current_dir +:+ plan_content in
  write_file plan_file plan_with_dir "w".

Definition append_to_project_plan (additional_content : string) : M W dict :=
  present <- path_exists plan_file ;;
  (if negb present
   then current_dir <- os_getcwd ;;
        let initial_content := plan_header current_dir in
        write_file plan_file initial_content "w" ;;;
        ret tt
   else ret tt) ;;;
  append_file plan_file (LF +:+ additional_content).

Definition read_project_plan : M W dict := read_file plan_file.

Definition list_directory (directory : string) : M W dict :=
  try_except
    (contents <- os_listdir directory ;;
     ret [("contents", VList (map VStr contents)); ("success", VBool true)])
    (fun e =>
       ret [("contents", VList []);
            ("error", VStr (exn_msg e));
            ("success", VBool false)]).

Definition get_file_info (file_path : string) : M W dict :=
  try_except
    (file_stat <- os_stat file_path ;;
     is_directory <- (fun w => (Ret (os_path_isdir file_path w), w)) ;;
     is_file <- (fun w => (Ret (os_path_isfile file_path w), w)) ;;
     let info :=
       [("size", VInt (st_size file_stat));
        ("modified_time", VFloat (st_mtime file_stat));
        ("created_time", VFloat (st_ctime file_stat));
        ("is_directory", VBool is_directory);
        ("is_file", VBool is_file)] in
     ret [("info", VDict info); ("success", VBool true)])
    (fun e =>
       ret [("info", VDict []);
            ("error", VStr (exn_msg e));
            ("success", VBool false)]).

Definition create_directory (directory_path : string) : M W dict :=
  try_except
    (os_makedirs directory_path ;;;
     ret [("success", VBool true)])
    (fun e => ret [("success", VBool false); ("error", VStr (exn_msg e))]).

End Library.

(** ** The registered tools ([coder.py]) *)

Section Tools.
Context {W : Type} `{HostW : Host W}.

Definition execute_command (command : string) : M W dict :=
  run_command command.

Definition read_file_content (file_path : string) : M W dict :=
  read_file file_path.

Definition write_file_content (file_path content mode : string) : M W dict :=
  write_file file_path content mode.

Definition append_to_file (file_path content : string) : M W dict :=
  append_file file_path content.

Definition search_web (query : string) : M W dict := web_search query.

Definition fetch_url (url : string) : M W dict := web_fetch url.

Definition create_plan (plan_content : string) : M W dict :=
  create_project_plan plan_content.

Definition append_plan (additional_content : string) : M W dict :=
  append_to_project_plan additional_content.

Definition read_plan : M W dict := read_project_plan.

Definition list_dir (directory : string) : M W dict :=
  list_directory directory.

Definition get_file_details (file_path : string) : M W dict :=
  get_file_info file_path.

Definition create_dir (directory_path : string) : M W dict :=
  create_directory directory_path.

(** A call of a registered tool with arguments of the declared shape.
    The two parameters with a default ([mode = 'w'], [directory = "."])
    may be left out. *)
Inductive invocation : Type :=
| ExecuteCommand (command : string)
| ReadFileContent (file_path : string)
| WriteFileContent (file_path content : string) (mode : option string)
| AppendToFile (file_path content : string)
| SearchWeb (query : string)
| FetchUrl (url : string)
| CreatePlan (plan_content : string)
| AppendPlan (additional_content : string)
| ReadPlan
| ListDir (directory : option string)
| GetFileDetails (file_path : string)
| CreateDir (directory_path : string).

Definition tool_name (i : invocation) : string :=
  match i with
  | ExecuteCommand _ => "execute_command"
  | ReadFileContent _ => "read_file_content"
  | WriteFileContent _ _ _ => "write_file_content"
  | AppendToFile _ _ => "append_to_file"
  | SearchWeb _ => "search_web"
  | FetchUrl _ => "fetch_url"
  | CreatePlan _ => "create_plan"
  | AppendPlan _ => "append_plan"
  | ReadPlan => "read_plan"
  | ListDir _ => "list_dir"
  | GetFileDetails _ => "get_file_details"
  | CreateDir _ => "create_dir"
  end.

Definition run_tool (i : invocation) : M W dict :=
  match i with
  | ExecuteCommand command => execute_command command
  | ReadFileContent file_path => read_file_content file_path
  | WriteFileContent file_path content mode =>
      write_file_content file_path content (default "w" mode)
  | AppendToFile file_path content => append_to_file file_path content
  | SearchWeb query => search_web query
  | FetchUrl url => fetch_url url
  | CreatePlan plan_content => create_plan plan_content
  | AppendPlan additional_content => append_plan additional_content
  | ReadPlan => read_plan
  | ListDir directory => list_dir (default "." directory)
  | GetFileDetails file_path => get_file_details file_path
  | CreateDir directory_path => create_dir directory_path
  end.

End Tools.

(** ** The function catalogue and the standalone entry point ([main.py]) *)

(** [func.__doc__] of each library function: its text as it stands in
    the source between the triple quotes (what interpreters before
    Python 3.13 keep; later ones drop the common indentation). *)
Module Doc.
Definition run_command : string :=
"
    Run a shell command and return the output and exit code.
    
    Args:
        command: Command to execute
        
    Returns:
        Dictionary with stdout, stderr, and exit_code
    ".

Definition read_file : string :=
"
    Read contents from a file.
    
    Args:
        file_path: Path to the file
        
    Returns:
        Dictionary with content and success status
    ".

Definition write_file : string :=
"
    Write or append content to a file.
    
    Args:
        file_path: Path to the file
        content: Content to write
        mode: 'w' for write (overwrite), 'a' for append
        
    Returns:
        Dictionary with success status
    ".

Definition append_file : string :=
"
    Append content to a file.
    
    Args:
        file_path: Path to the file
        content: Content to append
        
    Returns:
        Dictionary with success status
    ".

Definition web_search : string :=
"
    Search the web for information.
    
    Args:
        query: Search query
        
    Returns:
        Dictionary with search results and success status
    ".

Definition web_fetch : string :=
"
    Fetch content from a specific URL.
    
    Args:
        url: URL to fetch content from
        
    Returns:
        Dictionary with content and success status
    ".

Definition create_project_plan : string :=
"
    Create or update the project action plan file.
    
    Args:
        plan_content: Plan content to write
        
    Returns:
        Dictionary with success status
    ".

Definition append_to_project_plan : string :=
"
    Append content to the project action plan.
    
    Args:
        additional_content: Content to append
        
    Returns:
        Dictionary with success status
    ".

Definition read_project_plan : string :=
"
    Read the current project action plan.
    
    Returns:
        Dictionary with plan content and success status
    ".

Definition list_directory : string :=
"
    List contents of a directory.
    
    Args:
        directory: Directory path to list (defaults to current directory)
        
    Returns:
        Dictionary with directory contents and success status
    ".

Definition get_file_info : string :=
"
    Get information about a file (size, modification time, etc).
    
    Args:
        file_path: Path to the file
        
    Returns:
        Dictionary with file information and success status
    ".

Definition create_directory : string :=
"
    Create a new directory.
    
    Args:
        directory_path: Path of directory to create
        
    Returns:
        Dictionary with success status
    ".

End Doc.

(** [s.strip()]: the characters for which [str.isspace] holds, among
    those below 256. *)
Definition is_space (c : ascii) : bool :=
  let n := N_of_ascii c in
  ((9 <=? n) && (n <=? 13) || (28 <=? n) && (n <=? 32)
   || (n =? 133) || (n =? 160))%N.

Fixpoint lstrip (s : string) : string :=
  match s with
  | String c rest => if is_space c then lstrip rest else s
  | EmptyString => EmptyString
  end.

Fixpoint rstrip (s : string) : string :=
  match s with
  | String c rest =>
      match rstrip rest with
      | EmptyString => if is_space c then EmptyString else String c EmptyString
      | rest' => String c rest'
      end
  | EmptyString => EmptyString
  end.

Definition strip (s : string) : string := rstrip (lstrip s).

(** [json.dumps(v, indent=2)], with the default [ensure_ascii=True]. *)
Definition hex_digit (n : N) : ascii :=
  default "0"%char (String.get (N.to_nat n) "0123456789abcdef").

Definition json_escape_char (c : ascii) : string :=
  let n := N_of_ascii c in
  if (n =? 34)%N then BSL +:+ DQ
  else if (n =? 92)%N then BSL +:+ BSL
  else if (n =? 10)%N then BSL +:+ "n"
  else if (n =? 13)%N then BSL +:+ "r"
  else if (n =? 9)%N then BSL +:+ "t"
  else if (n =? 8)%N then BSL +:+ "b"
  else if (n =? 12)%N then BSL +:+ "f"
  else if ((n <? 32) || (126 <? n))%N
       then BSL +:+ "u00" +:+
            String (hex_digit (n / 16)) (String (hex_digit (n mod 16)) EmptyString)
       else String c EmptyString.

Fixpoint json_escape (s : string) : string :=
  match s with
  | String c rest => json_escape_char c +:+ json_escape rest
  | EmptyString => EmptyString
  end.

Definition json_string (s : string) : string := DQ +:+ json_escape s +:+ DQ.

Fixpoint spaces (n : nat) : string :=
  match n with
  | O => EmptyString
  | S n' => String " "%char (spaces n')
  end.

Definition json_block (opening closing : string) (level : nat)
    (items : list string) : string :=
  match items with
  | [] => opening +:+ closing
  | _ =>
      opening +:+ LF +:+ spaces (2 * S level) +:+
      String.concat ("," +:+ LF +:+ spaces (2 * S level)) items +:+
      LF +:+ spaces (2 * level) +:+ closing
  end.

Fixpoint json_dumps_at (level : nat) (v : value) : string :=
  match v with
  | VStr s => json_string s
  | VInt z => pretty z
  | VFloat r => r
  | VBool b => if b then "true" else "false"
  | VList l => json_block "[" "]" level (map (json_dumps_at (S level)) l)
  | VDict d =>
      json_block "{" "}" level
        (map (fun kv => match kv with
                        | (k, x) => json_string k +:+ ": " +:+ json_dumps_at (S level) x
                        end) d)
  end.

Definition json_dumps (v : value) : string := json_dumps_at 0 v.

(** The list [functions] of [get_functions_schema]: each function with
    its [__name__] and its [__doc__]. *)
Definition functions : list (string * string) :=
  [("run_command", Doc.run_command); ("read_file", Doc.read_file);
   ("write_file", Doc.write_file); ("append_file", Doc.append_file);
   ("web_search", Doc.web_search); ("web_fetch", Doc.web_fetch);
   ("create_project_plan", Doc.create_project_plan);
   ("append_to_project_plan", Doc.append_to_project_plan);
   ("read_project_plan", Doc.read_project_plan);
   ("list_directory", Doc.list_directory);
   ("get_file_info", Doc.get_file_info);
   ("create_directory", Doc.create_directory)].

Definition schema : list value :=
  map (fun func => match func with
                   | (name, docstring) =>
                       VDict [("name", VStr name);
                              ("description", VStr (strip docstring))]
                   end) functions.

Definition get_functions_schema : string := json_dumps (VList schema).

(** The block under [if __name__ == "__main__":], given [sys.argv]. *)
Definition main_block {W : Type} `{HostW : Host W} (argv : list string) : M W unit :=
  if (1 <? length argv)%nat
  then
    let command := String.concat " " (skipn 1 argv) in
    result <- run_command command ;;
    py_print (json_dumps (VDict result))
  else
    py_print "Available functions:" ;;;
    py_print get_functions_schema.

(** ** A machine: files and directories in a finite map *)

(** One [Host].  A path names a node by its text as written (two
    spellings of one path are two names); relative paths are relative to
    the working directory, which always exists.  A file holds text.
    There are no permissions, links or devices: a call fails only
    because a node is missing or of the wrong kind.  Shell commands and
    HTTP requests are answered by two functions carried in the state. *)
Module Posix.

Inductive node : Type :=
| File (content : string)
| Dir.

Record world : Type :=
  { fs : gmap string node;
    cwd : string;
    environ : gmap string string;
    shell : string -> gmap string node -> res CompletedProcess * gmap string node;
    http : string -> list (string * string) -> res Response;
    ftimes : string -> string * string;
    dir_size : Z;
    stdout : list string }.

Definition set_fs (w : world) (m : gmap string node) : world :=
  {| fs := m; cwd := cwd w; environ := environ w; shell := shell w;
     http := http w; ftimes := ftimes w; dir_size := dir_size w;
     stdout := stdout w |}.

Definition set_stdout (w : world) (out : list string) : world :=
  {| fs := fs w; cwd := cwd w; environ := environ w; shell := shell w;
     http := http w; ftimes := ftimes w; dir_size := dir_size w;
     stdout := out |}.

Definition os_error (cls : string) (errno : Z) (strerror path : string) : exn :=
  Exn cls ("[Errno " +:+ pretty errno +:+ "] " +:+ strerror +:+ ": '" +:+ path +:+ "'").

Definition ENOENT (path : string) : exn :=
  os_error "FileNotFoundError" 2 "No such file or directory" path.
Definition EEXIST (path : string) : exn :=
  os_error "FileExistsError" 17 "File exists" path.
Definition ENOTDIR (path : string) : exn :=
  os_error "NotADirectoryError" 20 "Not a directory" path.
Definition EISDIR (path : string) : exn :=
  os_error "IsADirectoryError" 21 "Is a directory" path.

(** [path] cut at its last slash: what is before and what is after. *)
Fixpoint split_last_slash (path : string) : option (string * string) :=
  match path with
  | EmptyString => None
  | String c rest =>
      match split_last_slash rest with
      | Some (d, b) => Some (String c d, b)
      | None => if Ascii.eqb c "/" then Some (EmptyString, rest) else None
      end
  end.

(** Why the directory that should hold [path] cannot: [None] when it can. *)
Definition parent_error (m : gmap string node) (path : string) : option exn :=
  match split_last_slash path with
  | None => None
  | Some (EmptyString, _) => None
  | Some (d, _) =>
      match m !! d with
      | Some Dir => None
      | Some (File _) => Some (ENOTDIR path)
      | None => Some (ENOENT path)
      end
  end.

(** *** [open] *)

Record open_mode : Type :=
  { creating : bool; reading : bool; writing : bool; appending : bool;
    updating : bool; text_mode : bool; binary : bool }.

Definition no_mode : open_mode :=
  {| creating := false; reading := false; writing := false;
     appending := false; updating := false; text_mode := false;
     binary := false |}.

Fixpoint occurs (c : ascii) (s : string) : bool :=
  match s with
  | EmptyString => false
  | String c' rest => Ascii.eqb c c' || occurs c rest
  end.

Definition set_flag (c : ascii) (o : open_mode) : option open_mode :=
  let o' x r w a u t b :=
    {| creating := x; reading := r; writing := w; appending := a;
       updating := u; text_mode := t; binary := b |} in
  match o with
  | Build_open_mode x r w a u t b =>
      if Ascii.eqb c "x" then Some (o' true r w a u t b)
      else if Ascii.eqb c "r" then Some (o' x true w a u t b)
      else if Ascii.eqb c "w" then Some (o' x r true a u t b)
      else if Ascii.eqb c "a" then Some (o' x r w true u t b)
      else if Ascii.eqb c "+" then Some (o' x r w a true t b)
      else if Ascii.eqb c "t" then Some (o' x r w a u true b)
      else if Ascii.eqb c "b" then Some (o' x r w a u t true)
      else None
  end.

(** The letters of a mode, none unknown and none twice. *)
Fixpoint decode_mode (mode : string) (o : open_mode) : option open_mode :=
  match mode with
  | EmptyString => Some o
  | String c rest =>
      match set_flag c o with
      | Some o' => if occurs c rest then None else decode_mode rest o'
      | None => None
      end
  end.

Definition count (b : bool) : nat := if b then 1%nat else 0%nat.

(** The checks of [open(path, mode, encoding='utf-8')] on its mode. *)
Definition check_mode (mode : string) : exn + open_mode :=
  match decode_mode mode no_mode with
  | None => inl (Exn "ValueError" ("invalid mode: '" +:+ mode +:+ "'"))
  | Some o =>
      let primary :=
        (count (creating o) + count (reading o) + count (writing o)
         + count (appending o))%nat in
      if text_mode o && binary o
      then inl (Exn "ValueError" "can't have text and binary mode at once")
      else if (1 <? primary)%nat
      then inl (Exn "ValueError"
                  "must have exactly one of create/read/write/append mode")
      else if binary o
      then inl (Exn "ValueError" "binary mode doesn't take an encoding argument")
      else if (primary =? 0)%nat
      then inl (Exn "ValueError"
                  "Must have exactly one of create/read/write/append mode and at most one plus")
      else inr o
  end.

(** An open text file: its path, what it allows, and whether its
    position is the end of the file (append) or the start. *)
Record file_handle : Type :=
  { h_path : string; h_readable : bool; h_writable : bool; h_at_end : bool }.

Definition handle_of (path : string) (o : open_mode) : file_handle :=
  {| h_path := path;
     h_readable := reading o || updating o;
     h_writable := writing o || appending o || creating o || updating o;
     h_at_end := appending o |}.

Definition open_file (path mode : string) : M world file_handle :=
  fun w =>
    match check_mode mode with
    | inl e => (Raise e, w)
    | inr o =>
        match fs w !! path with
        | Some Dir => (Raise (EISDIR path), w)
        | Some (File c) =>
            if creating o then (Raise (EEXIST path), w)
            else if writing o
            then (Ret (handle_of path o), set_fs w (<[path := File EmptyString]> (fs w)))
            else (Ret (handle_of path o), w)
        | None =>
            match parent_error (fs w) path with
            | Some e => (Raise e, w)
            | None =>
                if reading o || String.eqb path EmptyString
                then (Raise (ENOENT path), w)
                else (Ret (handle_of path o),
                      set_fs w (<[path := File EmptyString]> (fs w)))
            end
        end
    end.

(** Reading in text mode turns each of the line ends CR LF and CR into LF. *)
Fixpoint universal_newlines (s : string) : string :=
  match s with
  | EmptyString => EmptyString
  | String c rest =>
      if Ascii.eqb c "013"
      then match rest with
           | String c' rest' =>
               if Ascii.eqb c' "010" then String "010" (universal_newlines rest')
               else String "010" (universal_newlines rest)
           | EmptyString => String "010" EmptyString
           end
      else String c (universal_newlines rest)
  end.

Definition unsupported (what : string) : exn :=
  Exn "UnsupportedOperation" what.

Definition read_all (h : file_handle) : M world string :=
  fun w =>
    if h_readable h
    then match fs w !! h_path h with
         | Some (File c) =>
             (Ret (if h_at_end h then EmptyString else universal_newlines c), w)
         | _ => (Raise (EISDIR (h_path h)), w)
         end
    else (Raise (unsupported "not readable"), w).

(** A first write through a handle: at the end when appending, else over
    the start of the file. *)
Definition overwrite (old new : string) : string :=
  new +:+ substring (String.length new) (String.length old - String.length new) old.

Definition write_text (h : file_handle) (s : string) : M world unit :=
  fun w =>
    if h_writable h
    then match fs w !! h_path h with
         | Some (File c) =>
             let c' := if h_at_end h then c +:+ s else overwrite c s in
             (Ret tt, set_fs w (<[h_path h := File c']> (fs w)))
         | _ => (Raise (EISDIR (h_path h)), w)
         end
    else (Raise (unsupported "not writable"), w).

(** *** Directories *)

(** [os.mkdir(path)] *)
Definition mkdir1 (m : gmap string node) (path : string) : exn + gmap string node :=
  match m !! path with
  | Some _ => inl (EEXIST path)
  | None =>
      match parent_error m path with
      | Some e => inl e
      | None =>
          if String.eqb path EmptyString then inl (ENOENT path)
          else inr (<[path := Dir]> m)
      end
  end.

Definition is_dir (m : gmap string node) (path : string) : bool :=
  match m !! path with
  | Some Dir => true
  | _ => false
  end.

Definition is_file (m : gmap string node) (path : string) : bool :=
  match m !! path with
  | Some (File _) => true
  | _ => false
  end.

(** [Path(path).mkdir(exist_ok=True)]: a directory already there is not
    an error, anything else already there is. *)
Definition mkdir_exist_ok (path : string) : M world unit :=
  fun w =>
    match mkdir1 (fs w) path with
    | inr m => (Ret tt, set_fs w m)
    | inl e => if is_dir (fs w) path then (Ret tt, w) else (Raise e, w)
    end.

(** [path] and the directories above it that its text names, longest
    first: for a/b/c these are a/b/c, a/b and a. *)
Fixpoint chain_fuel (fuel : nat) (path : string) : list string :=
  match fuel with
  | O => []
  | S fuel' =>
      path ::
      match split_last_slash path with
      | Some (String c d, _) => chain_fuel fuel' (String c d)
      | _ => []
      end
  end.

Definition chain (path : string) : list string :=
  chain_fuel (String.length path) path.

(** [os.makedirs(name, exist_ok=True)] along such a chain. *)
Fixpoint makedirs_chain (names : list string) (m : gmap string node)
  : res unit * gmap string node :=
  match names with
  | [] => (Ret tt, m)
  | name :: heads =>
      let above :=
        match heads with
        | head :: _ =>
            if bool_decide (is_Some (m !! head)) then (Ret tt, m)
            else match makedirs_chain heads m with
                 | (Raise e, m') =>
                     if String.eqb (exn_type e) "FileExistsError"
                     then (Ret tt, m') else (Raise e, m')
                 | done => done
                 end
        | [] => (Ret tt, m)
        end in
      match above with
      | (Raise e, m1) => (Raise e, m1)
      | (Ret _, m1) =>
          match mkdir1 m1 name with
          | inr m2 => (Ret tt, m2)
          | inl e => if is_dir m1 name then (Ret tt, m1) else (Raise e, m1)
          end
      end
  end.

Definition makedirs (name : string) : M world unit :=
  fun w =>
    match makedirs_chain (chain name) (fs w) with
    | (r, m) => (r, set_fs w m)
    end.

(** The names directly inside [directory], in the order the map gives. *)
Definition entries (m : gmap string node) (directory : string) : list string :=
  omap (fun path =>
          match split_last_slash path with
          | Some (d, b) => if String.eqb d directory then Some b else None
          | None => if String.eqb directory "." then Some path else None
          end) (map_to_list m).*1.

Definition listdir (directory : string) : M world (list string) :=
  fun w =>
    if String.eqb directory "." then (Ret (entries (fs w) "."), w)
    else match fs w !! directory with
         | Some Dir => (Ret (entries (fs w) directory), w)
         | Some (File _) => (Raise (ENOTDIR directory), w)
         | None => (Raise (ENOENT directory), w)
         end.

(** The number of bytes of a text in UTF-8. *)
Fixpoint utf8_length (s : string) : Z :=
  match s with
  | EmptyString => 0
  | String c rest =>
      (if (N_of_ascii c <? 128)%N then 1 else 2) + utf8_length rest
  end.

Definition stat (path : string) : M world stat_result :=
  fun w =>
    let times := ftimes w path in
    match fs w !! path with
    | Some (File c) =>
        (Ret {| st_size := utf8_length c; st_mtime := times.1; st_ctime := times.2 |}, w)
    | Some Dir =>
        (Ret {| st_size := dir_size w; st_mtime := times.1; st_ctime := times.2 |}, w)
    | None => (Raise (ENOENT path), w)
    end.

#[export] Instance posix_host : Host world :=
  {| handle := file_handle;
     subprocess_run := fun command w =>
       match shell w command (fs w) with
       | (r, m) => (r, set_fs w m)
       end;
     py_open := open_file;
     f_read := read_all;
     f_write := write_text;
     f_close := fun _ w => (Ret tt, w);
     environ_get := fun key w => environ w !! key;
     requests_get := fun url params w => (http w url params, w);
     path_mkdir := mkdir_exist_ok;
     path_exists := fun path w => (Ret (bool_decide (is_Some (fs w !! path))), w);
     os_getcwd := fun w => (Ret (cwd w), w);
     os_listdir := listdir;
     os_stat := stat;
     os_path_isdir := fun path w => is_dir (fs w) path;
     os_path_isfile := fun path w => is_file (fs w) path;
     os_makedirs := makedirs;
     py_print := fun s w => (Ret tt, set_stdout w (stdout w ++ [s])) |}.

(** A fresh machine: an empty working directory [/home/khepri], no
    credentials, a shell that knows [exit n] for one digit [n], and a
    search provider that answers 403 to a request without a key. *)
Definition demo_shell (command : string) (m : gmap string node)
  : res CompletedProcess * gmap string node :=
  match command with
  | String "e" (String "x" (String "i" (String "t" (String " " (String d EmptyString))))) =>
      (Ret {| cp_stdout := EmptyString; cp_stderr := EmptyString;
              cp_returncode := Z.of_N (N_of_ascii d) - 48 |}, m)
  | _ =>
      (Ret {| cp_stdout := EmptyString;
              cp_stderr := "/bin/sh: 1: " +:+ command +:+ ": not found" +:+ LF;
              cp_returncode := 127 |}, m)
  end.

Definition demo_http (url : string) (params : list (string * string)) : res Response :=
  if String.eqb url "https://www.googleapis.com/customsearch/v1"
  then match params with
       | [(_, _); ("key", EmptyString); (_, _)] =>
           Ret {| status_code := 403; text := "{ error: { code: 403 } }" |}
       | _ => Ret {| status_code := 200; text := "{ items: [] }" |}
       end
  else Raise (Exn "ConnectionError" ("Failed to resolve " +:+ url)).

Definition fresh : world :=
  {| fs := ∅; cwd := "/home/khepri"; environ := ∅; shell := demo_shell;
     http := demo_http; ftimes := fun _ => ("1700000000.5", "1700000000.5");
     dir_size := 4096; stdout := [] |}.

End Posix.

(** ** Vocabulary of the statements *)

Definition success_of (e : dict) : option value := dict_get "success" e.
Definition error_of (e : dict) : option value := dict_get "error" e.

(** The envelope says success and has no error key, or says failure and
    has an error key holding a string. *)
Definition flagged (e : dict) : Prop :=
  (success_of e = Some (VBool true) /\ error_of e = None) \/
  (exists msg, success_of e = Some (VBool false) /\ error_of e = Some (VStr msg)).

(** [f] guards the calls of [suite]: where [suite] returns, [f] returns a
    success envelope without an error key; where [suite] raises, [f]
    returns a failure envelope whose error is the exception's message. *)
Definition reports {W A} (suite : M W A) (f : M W dict) : Prop :=
  forall w,
    match suite w with
    | (Ret _, w') =>
        exists e, f w = (Ret e, w') /\
                  success_of e = Some (VBool true) /\ error_of e = None
    | (Raise ex, w') =>
        exists e, f w = (Ret e, w') /\
                  success_of e = Some (VBool false) /\
                  error_of e = Some (VStr (exn_msg ex))
    end.

(** The calls that each library function puts under [try]. *)
Section Suites.
Context {W : Type} `{HostW : Host W}.

Definition read_suite (file_path : string) : M W string :=
  f <- py_open file_path "r" ;; py_with f (f_read f).

Definition write_suite (file_path content mode : string) : M W unit :=
  f <- py_open file_path mode ;; py_with f (f_write f content).

Definition search_suite (query : string) : M W Response :=
  fun w =>
    requests_get "https://www.googleapis.com/customsearch/v1"
      [("q", query);
       ("key", default EmptyString (environ_get "GOOGLE_API_KEY" w));
       ("cx", default EmptyString (environ_get "GOOGLE_SEARCH_ENGINE_ID" w))] w.

End Suites.

Module Scenario.
Import Posix.

(** The working directory holds a regular file named project_plan. *)
Definition blocked : world :=
  set_fs fresh {[ "project_plan" := File "notes" ]}.

(** No process can be started. *)
Definition spawn_fails : world :=
  {| fs := ∅; cwd := "/home/khepri"; environ := ∅;
     shell := fun _ m =>
       (Raise (Exn "OSError" "[Errno 12] Cannot allocate memory"), m);
     http := demo_http; ftimes := ftimes fresh;
     dir_size := 4096; stdout := [] |}.


(** The network is unreachable. *)
Definition offline : world :=
  {| fs := ∅; cwd := "/home/khepri"; environ := ∅; shell := demo_shell;
     http := fun url _ => Raise (Exn "ConnectionError" ("Failed to resolve " +:+ url));
     ftimes := ftimes fresh; dir_size := 4096; stdout := [] |}.

Definition no_cr (s : string) : Prop := occurs "013" s = false.

(** [path] can be opened for writing: it is a file, or it is free and
    the directory that should hold it exists. *)
Definition writable_at (m : gmap string node) (path : string) : Prop :=
  match m !! path with
  | Some (File _) => True
  | Some Dir => False
  | None => parent_error m path = None /\ path <> EmptyString
  end.

(** The plan document with body [body], written in working directory [dir]. *)
Definition plan_text (dir body : string) : string := plan_header dir +:+ body.

Definition with_plan (w : world) (body : string) : world :=
  set_fs w (<[plan_file := File (plan_text (cwd w) body)]>
              (<[plan_dir := Dir]> (fs w))).

End Scenario.

Module Layout.
Import Posix.

(** The text of the file at [path]; empty when there is none. *)
Definition content_at (m : gmap string node) (path : string) : string :=
  match m !! path with
  | Some (File c) => c
  | _ => EmptyString
  end.



(** What [os.stat] and [os.path] tell about a file of text [c] at [path]. *)
Definition file_info (w : world) (path c : string) : dict :=
  [("size", VInt (utf8_length c));
   ("modified_time", VFloat (ftimes w path).1);
   ("created_time", VFloat (ftimes w path).2);
   ("is_directory", VBool false);
   ("is_file", VBool true)].

(** A working directory with one file of two lines ended by CR LF. *)
Definition CR : string := String "013"%char EmptyString.

Definition with_note : world :=
  set_fs fresh {[ "note.txt" := File ("alpha" +:+ CR +:+ LF +:+ "beta") ]}.

End Layout.

(** ** A machine with null devices and unreadable files *)

(** A second [Host]: the file-system machine, and beside it a set of
    paths that are null devices (they take any write and read as empty,
    like /dev/null) and a set of paths whose regular files the process may
    not open for reading. *)
Module Special.
Import Posix.

Record world : Type :=
  { base : Posix.world;
    null_devices : gset string;
    unreadable : gset string }.

Definition set_base (w : world) (b : Posix.world) : world :=
  {| base := b; null_devices := null_devices w; unreadable := unreadable w |}.

(** A call that the file-system machine answers. *)
Definition lift {A : Type} (m : M Posix.world A) : M world A :=
  fun w =>
    match m (base w) with
    | (r, b) => (r, set_base w b)
    end.

Definition EACCES (path : string) : exn :=
  os_error "PermissionError" 13 "Permission denied" path.

Definition is_null (w : world) (path : string) : bool :=
  bool_decide (path ∈ null_devices w).

Definition open_special (path mode : string) : M world file_handle :=
  fun w =>
    match check_mode mode with
    | inl e => (Raise e, w)
    | inr o =>
        if is_null w path
        then if creating o then (Raise (EEXIST path), w)
             else (Ret (handle_of path o), w)
        else if (reading o || updating o)
                && bool_decide (path ∈ unreadable w)
                && is_file (fs (base w)) path
        then (Raise (EACCES path), w)
        else lift (open_file path mode) w
    end.

Definition read_special (h : file_handle) : M world string :=
  fun w =>
    if is_null w (h_path h)
    then if h_readable h then (Ret EmptyString, w)
         else (Raise (unsupported "not readable"), w)
    else lift (read_all h) w.

Definition write_special (h : file_handle) (s : string) : M world unit :=
  fun w =>
    if is_null w (h_path h)
    then if h_writable h then (Ret tt, w)
         else (Raise (unsupported "not writable"), w)
    else lift (write_text h s) w.

Definition stat_special (path : string) : M world stat_result :=
  fun w =>
    if is_null w path
    then (Ret {| st_size := 0;
                 st_mtime := (ftimes (base w) path).1;
                 st_ctime := (ftimes (base w) path).2 |}, w)
    else lift (stat path) w.

(** The null devices directly inside [directory]. *)
Definition device_entries (w : world) (directory : string) : list string :=
  omap (fun path =>
          match split_last_slash path with
          | Some (d, b) => if String.eqb d directory then Some b else None
          | None => if String.eqb directory "." then Some path else None
          end) (elements (null_devices w)).

Definition listdir_special (directory : string) : M world (list string) :=
  fun w =>
    if is_null w directory then (Raise (ENOTDIR directory), w)
    else match listdir directory (base w) with
         | (Ret names, b) => (Ret (names ++ device_entries w directory)%list, set_base w b)
         | (Raise e, b) => (Raise e, set_base w b)
         end.

#[global] Instance special_host : Host world :=
  {| handle := file_handle;
     subprocess_run := fun command => lift (subprocess_run command);
     py_open := open_special;
     f_read := read_special;
     f_write := write_special;
     f_close := fun _ w => (Ret tt, w);
     environ_get := fun key w => environ (base w) !! key;
     requests_get := fun url params => lift (requests_get url params);
     path_mkdir := fun path w =>
       if is_null w path then (Raise (EEXIST path), w)
       else lift (mkdir_exist_ok path) w;
     path_exists := fun path w =>
       if is_null w path then (Ret true, w)
       else lift (path_exists path) w;
     os_getcwd := lift os_getcwd;
     os_listdir := listdir_special;
     os_stat := stat_special;
     os_path_isdir := fun path w => negb (is_null w path) && is_dir (fs (base w)) path;
     os_path_isfile := fun path w => negb (is_null w path) && is_file (fs (base w)) path;
     os_makedirs := fun path w =>
       if is_null w path then (Raise (EEXIST path), w)
       else lift (makedirs path) w;
     py_print := fun s => lift (py_print s) |}.

(** A working directory as in [fresh], on a machine that has /dev/null. *)
Definition with_null : world :=
  {| base := fresh; null_devices := {[ "/dev/null" ]}; unreadable := ∅ |}.

(** A machine without devices and without unreadable files. *)
Definition plain (b : Posix.world) : world :=
  {| base := b; null_devices := ∅; unreadable := ∅ |}.

(** The path is neither a null device nor withheld from reading. *)
Definition regular (w : world) (path : string) : Prop :=
  (path ∉ null_devices w) /\ (path ∉ unreadable w).

End Special.

(** ** The text the standalone program prints *)

Module Printed.
Import Posix.

Definition quoted (s : string) : string := DQ +:+ s +:+ DQ.

(** The envelope of [run_command] as [json.dumps(result, indent=2)]
    lays it out. *)
Definition envelope_text (out err : string) (rc : Z) : string :=
  String.concat LF
    ["{";
     "  " +:+ quoted "stdout" +:+ ": " +:+ json_string out +:+ ",";
     "  " +:+ quoted "stderr" +:+ ": " +:+ json_string err +:+ ",";
     "  " +:+ quoted "exit_code" +:+ ": " +:+ pretty rc;
     "}"].

(** What the shell of [fresh] makes of a command it does not know,
    printed. *)
Definition not_found_text : string :=
  String.concat LF
    ["{";
     "  " +:+ quoted "stdout" +:+ ": " +:+ quoted EmptyString +:+ ",";
     "  " +:+ quoted "stderr" +:+ ": " +:+
       quoted "/bin/sh: 1: frobnicate --now: not found\n" +:+ ",";
     "  " +:+ quoted "exit_code" +:+ ": 127";
     "}"].

(** The catalogue as the program prints it, line by line. *)
Definition catalogue_text : string :=
  String.concat LF
    ["[";
     "  {";
     "    " +:+ quoted "name" +:+ ": " +:+ quoted "run_command" +:+ ",";
     "    " +:+ quoted "description" +:+ ": " +:+
     quoted "Run a shell command and return the output and exit code.\n    \n    Args:\n        command: Command to execute\n        \n    Returns:\n        Dictionary with stdout, stderr, and exit_code";
     "  },";
     "  {";
     "    " +:+ quoted "name" +:+ ": " +:+ quoted "read_file" +:+ ",";
     "    " +:+ quoted "description" +:+ ": " +:+
     quoted "Read contents from a file.\n    \n    Args:\n        file_path: Path to the file\n        \n    Returns:\n        Dictionary with content and success status";
     "  },";
     "  {";
     "    " +:+ quoted "name" +:+ ": " +:+ quoted "write_file" +:+ ",";
     "    " +:+ quoted "description" +:+ ": " +:+
     quoted "Write or append content to a file.\n    \n    Args:\n        file_path: Path to the file\n        content: Content to write\n        mode: 'w' for write (overwrite), 'a' for append\n        \n    Returns:\n        Dictionary with success status";
     "  },";
     "  {";
     "    " +:+ quoted "name" +:+ ": " +:+ quoted "append_file" +:+ ",";
     "    " +:+ quoted "description" +:+ ": " +:+
     quoted "Append content to a file.\n    \n    Args:\n        file_path: Path to the file\n        content: Content to append\n        \n    Returns:\n        Dictionary with success status";
     "  },";
     "  {";
     "    " +:+ quoted "name" +:+ ": " +:+ quoted "web_search" +:+ ",";
     "    " +:+ quoted "description" +:+ ": " +:+
     quoted "Search the web for information.\n    \n    Args:\n        query: Search query\n        \n    Returns:\n        Dictionary with search results and success status";
     "  },";
     "  {";
     "    " +:+ quoted "name" +:+ ": " +:+ quoted "web_fetch" +:+ ",";
     "    " +:+ quoted "description" +:+ ": " +:+
     quoted "Fetch content from a specific URL.\n    \n    Args:\n        url: URL to fetch content from\n        \n    Returns:\n        Dictionary with content and success status";
     "  },";
     "  {";
     "    " +:+ quoted "name" +:+ ": " +:+ quoted "create_project_plan" +:+ ",";
     "    " +:+ quoted "description" +:+ ": " +:+
     quoted "Create or update the project action plan file.\n    \n    Args:\n        plan_content: Plan content to write\n        \n    Returns:\n        Dictionary with success status";
     "  },";
     "  {";
     "    " +:+ quoted "name" +:+ ": " +:+ quoted "append_to_project_plan" +:+ ",";
     "    " +:+ quoted "description" +:+ ": " +:+
     quoted "Append content to the project action plan.\n    \n    Args:\n        additional_content: Content to append\n        \n    Returns:\n        Dictionary with success status";
     "  },";
     "  {";
     "    " +:+ quoted "name" +:+ ": " +:+ quoted "read_project_plan" +:+ ",";
     "    " +:+ quoted "description" +:+ ": " +:+
     quoted "Read the current project action plan.\n    \n    Returns:\n        Dictionary with plan content and success status";
     "  },";
     "  {";
     "    " +:+ quoted "name" +:+ ": " +:+ quoted "list_directory" +:+ ",";
     "    " +:+ quoted "description" +:+ ": " +:+
     quoted "List contents of a directory.\n    \n    Args:\n        directory: Directory path to list (defaults to current directory)\n        \n    Returns:\n        Dictionary with directory contents and success status";
     "  },";
     "  {";
     "    " +:+ quoted "name" +:+ ": " +:+ quoted "get_file_info" +:+ ",";
     "    " +:+ quoted "description" +:+ ": " +:+
     quoted "Get information about a file (size, modification time, etc).\n    \n    Args:\n        file_path: Path to the file\n        \n    Returns:\n        Dictionary with file information and success status";
     "  },";
     "  {";
     "    " +:+ quoted "name" +:+ ": " +:+ quoted "create_directory" +:+ ",";
     "    " +:+ quoted "description" +:+ ": " +:+
     quoted "Create a new directory.\n    \n    Args:\n        directory_path: Path of directory to create\n        \n    Returns:\n        Dictionary with success status";
     "  }";
     "]"].

(** A string with a character of each kind that [json.dumps] escapes
    (quote, backslash, line feed, tab, a control character, a character
    above 126) and one it does not, and its rendering. *)
Definition escape_sample : string :=
  DQ +:+ BSL +:+ LF +:+ String "009"%char (String "001"%char (String "233"%char "~")).

Definition escape_sample_text : string :=
  DQ +:+ BSL +:+ DQ +:+ BSL +:+ BSL +:+ BSL +:+ "n" +:+ BSL +:+ "t" +:+
  BSL +:+ "u0001" +:+ BSL +:+ "u00e9" +:+ "~" +:+ DQ.


End Printed.

(** * Properties *)

(** ** The guard [try ... except Exception] *)

(** A guarded body whose handler returns cannot raise. *)
Lemma try_except_returns {W A} (body : M W A) (h : exn -> A) w :
  exists a w', try_except body (fun e => ret (h e)) w = (Ret a, w').
Proof.
  unfold try_except, ret. destruct (body w) as [[a | ex] w']; eauto.
Qed.

Lemma bind_ret_inv {W A B} (m : M W A) (k : A -> M W B) w b w' :
  bind m k w = (Ret b, w') ->
  exists a w1, m w = (Ret a, w1) /\ k a w1 = (Ret b, w').
Proof.
  unfold bind. destruct (m w) as [[a | ex] w1]; [eauto | discriminate].
Qed.

Lemma reports_flagged {W A} (suite : M W A) f w e w' :
  reports suite f -> f w = (Ret e, w') -> flagged e.
Proof.
  intros Hr Hf. specialize (Hr w). destruct (suite w) as [[a | ex] w1].
  - destruct Hr as (e1 & He1 & Hs & Hn). rewrite Hf in He1.
    injection He1 as <- _. now left.
  - destruct Hr as (e1 & He1 & Hs & Hn). rewrite Hf in He1.
    injection He1 as <- _. right. eauto.
Qed.

Section LibraryFacts.
Context {W : Type} `{HostW : Host W}.

Lemma read_file_reports file_path :
  reports (read_suite file_path) (read_file file_path).
Proof.
  intros w. unfold read_file, read_suite, try_except, bind, ret.
  destruct (py_open file_path "r" w) as [[f | ex] w1].
  - destruct (py_with f (f_read f) w1) as [[c | ex] w2];
      eexists; (split; [reflexivity | split; reflexivity]).
  - eexists; (split; [reflexivity | split; reflexivity]).
Qed.

Lemma write_file_reports file_path content mode :
  reports (write_suite file_path content mode) (write_file file_path content mode).
Proof.
  intros w. unfold write_file, write_suite, try_except, bind, ret.
  destruct (py_open file_path mode w) as [[f | ex] w1].
  - destruct (py_with f (f_write f content) w1) as [[u | ex] w2];
      eexists; (split; [reflexivity | split; reflexivity]).
  - eexists; (split; [reflexivity | split; reflexivity]).
Qed.

Lemma web_search_reports query :
  reports (search_suite query) (web_search query).
Proof.
  intros w. unfold web_search, search_suite, environ_get_default, try_except, bind, ret.
  destruct (requests_get _ _ w) as [[r | ex] w1];
    eexists; (split; [reflexivity | split; reflexivity]).
Qed.

Lemma web_fetch_reports url :
  reports (requests_get url []) (web_fetch url).
Proof.
  intros w. unfold web_fetch, try_except, bind, ret.
  destruct (requests_get url [] w) as [[r | ex] w1];
    eexists; (split; [reflexivity | split; reflexivity]).
Qed.

Lemma list_directory_reports directory :
  reports (os_listdir directory) (list_directory directory).
Proof.
  intros w. unfold list_directory, try_except, bind, ret.
  destruct (os_listdir directory w) as [[r | ex] w1];
    eexists; (split; [reflexivity | split; reflexivity]).
Qed.

Lemma get_file_info_reports file_path :
  reports (os_stat file_path) (get_file_info file_path).
Proof.
  intros w. unfold get_file_info, try_except, bind, ret.
  destruct (os_stat file_path w) as [[r | ex] w1];
    eexists; (split; [reflexivity | split; reflexivity]).
Qed.

Lemma create_directory_reports directory_path :
  reports (os_makedirs directory_path) (create_directory directory_path).
Proof.
  intros w. unfold create_directory, try_except, bind, ret.
  destruct (os_makedirs directory_path w) as [[r | ex] w1];
    eexists; (split; [reflexivity | split; reflexivity]).
Qed.

(** What [create_project_plan] calls before [write_file] is not guarded:
    an exception of the directory creation leaves the function. *)
Lemma create_project_plan_propagates plan_content w ex w' :
  path_mkdir plan_dir w = (Raise ex, w') ->
  create_project_plan plan_content w = (Raise ex, w').
Proof. intros Hm. unfold create_project_plan, bind. now rewrite Hm. Qed.

Lemma create_project_plan_flagged plan_content w e w' :
  create_project_plan plan_content w = (Ret e, w') -> flagged e.
Proof.
  unfold create_project_plan. intros Hc.
  apply bind_ret_inv in Hc as (u & w1 & _ & Hc).
  apply bind_ret_inv in Hc as (d & w2 & _ & Hc).
  eapply reports_flagged; [apply write_file_reports | exact Hc].
Qed.

Lemma append_to_project_plan_flagged additional_content w e w' :
  append_to_project_plan additional_content w = (Ret e, w') -> flagged e.
Proof.
  unfold append_to_project_plan. intros Hc.
  apply bind_ret_inv in Hc as (p & w1 & _ & Hc).
  apply bind_ret_inv in Hc as (u & w2 & _ & Hc).
  eapply reports_flagged; [apply write_file_reports | exact Hc].
Qed.

End LibraryFacts.

(** ** Claims on any machine *)

Section Claims.
Context {W : Type} `{HostW : Host W}.

(** C10.  Every library function with a success field returns an
    envelope that has an error key exactly when success is false.  For
    the functions that guard their own calls this is [reports]: success
    without an error key where the guarded calls return, failure with the
    raised exception's message under the error key where they raise.
    [append_file] and [read_project_plan] are [write_file] and
    [read_file] at fixed arguments; the envelopes of the two plan writers
    are those of [write_file]. *)
Theorem error_key_iff_failure :
  (forall p, reports (read_suite p) (read_file p)) /\
  (forall p c m, reports (write_suite p c m) (write_file p c m)) /\
  (forall p c, reports (write_suite p c "a") (append_file p c)) /\
  (forall q, reports (search_suite q) (web_search q)) /\
  (forall u, reports (requests_get u []) (web_fetch u)) /\
  reports (read_suite plan_file) read_project_plan /\
  (forall d, reports (os_listdir d) (list_directory d)) /\
  (forall p, reports (os_stat p) (get_file_info p)) /\
  (forall p, reports (os_makedirs p) (create_directory p)) /\
  (forall c w e w', create_project_plan c w = (Ret e, w') -> flagged e) /\
  (forall c w e w', append_to_project_plan c w = (Ret e, w') -> flagged e).
Proof.
  repeat split.
  - apply read_file_reports.
  - apply write_file_reports.
  - intros p c. apply write_file_reports.
  - apply web_search_reports.
  - apply web_fetch_reports.
  - apply read_file_reports.
  - apply list_directory_reports.
  - apply get_file_info_reports.
  - apply create_directory_reports.
  - apply create_project_plan_flagged.
  - apply append_to_project_plan_flagged.
Qed.

Lemma flagged_bool e : flagged e -> exists b, success_of e = Some (VBool b).
Proof. intros [[Hs _] | (msg & Hs & _)]; eauto. Qed.

(** C2, amended.  Whenever a registered tool returns an envelope: for
    [execute_command] the envelope has exactly the keys stdout, stderr
    and exit_code, and no success key; for every other tool it has a
    boolean success field. *)
Theorem tool_success_field (i : invocation) w e w' :
  run_tool i w = (Ret e, w') ->
  if String.eqb (tool_name i) "execute_command"
  then dict_keys e = ["stdout"; "stderr"; "exit_code"] /\ success_of e = None
  else exists b, success_of e = Some (VBool b).
Proof.
  destruct i; cbn [run_tool tool_name]; intros Hr;
    match goal with
    | |- context [String.eqb ?a ?b] =>
        let t := eval vm_compute in (String.eqb a b) in
        change (String.eqb a b) with t
    end; cbn beta iota;
    try (apply flagged_bool;
         first [ eapply create_project_plan_flagged; exact Hr
               | eapply append_to_project_plan_flagged; exact Hr
               | eapply reports_flagged; [| exact Hr];
                 first [ apply read_file_reports | apply write_file_reports
                       | apply web_search_reports | apply web_fetch_reports
                       | apply list_directory_reports
                       | apply get_file_info_reports
                       | apply create_directory_reports ] ]).
  unfold execute_command, run_command, try_except, bind, ret in Hr.
  destruct (subprocess_run command w) as [[cp | ex] w1];
    injection Hr as <- _; split; reflexivity.
Qed.

(** C7.  [execute_command] hands back the exit status of the process as
    exit_code, whatever it is, next to its two outputs; when the process
    cannot be run, exit_code is 1, stderr is the failure message and
    stdout is empty. *)
Theorem execute_command_exit_code (command : string) w :
  (forall cp w', subprocess_run command w = (Ret cp, w') ->
     execute_command command w =
       (Ret [("stdout", VStr (cp_stdout cp));
             ("stderr", VStr (cp_stderr cp));
             ("exit_code", VInt (cp_returncode cp))], w')) /\
  (forall ex w', subprocess_run command w = (Raise ex, w') ->
     execute_command command w =
       (Ret [("stdout", VStr EmptyString);
             ("stderr", VStr (exn_msg ex));
             ("exit_code", VInt 1)], w')).
Proof.
  split; intros x w' Hrun;
    unfold execute_command, run_command, try_except, bind, ret;
    rewrite Hrun; reflexivity.
Qed.

(** C8, amended.  [search_web] reads the two credentials from the
    environment when it is called, each empty when absent, and sends the
    request with them.  A response, whatever its status, comes back as a
    success envelope carrying the body; only a raised exception comes
    back as a failure envelope, with its message under error. *)
Theorem search_web_outcomes (query : string) w :
  let params :=
    [("q", query);
     ("key", default EmptyString (environ_get "GOOGLE_API_KEY" w));
     ("cx", default EmptyString (environ_get "GOOGLE_SEARCH_ENGINE_ID" w))] in
  (forall r w',
     requests_get "https://www.googleapis.com/customsearch/v1" params w = (Ret r, w') ->
     search_web query w =
       (Ret [("results", VStr (text r)); ("success", VBool true)], w')) /\
  (forall ex w',
     requests_get "https://www.googleapis.com/customsearch/v1" params w = (Raise ex, w') ->
     search_web query w =
       (Ret [("results", VStr EmptyString);
             ("error", VStr (exn_msg ex));
             ("success", VBool false)], w')).
Proof.
  split; intros x w' Hget;
    unfold search_web, web_search, environ_get_default, try_except, bind, ret;
    rewrite Hget; reflexivity.
Qed.

End Claims.

(** ** The file-system machine *)

Module PosixFacts.
Import Posix Scenario.



Lemma append_cons c (s t : string) : String c s +:+ t = String c (s +:+ t).
Proof. reflexivity. Qed.

Lemma append_nil_r (s : string) : s +:+ EmptyString = s.
Proof.
  induction s as [| c s IH]; [reflexivity |]. now rewrite append_cons, IH.
Qed.

Lemma overwrite_empty (s : string) : overwrite EmptyString s = s.
Proof.
  unfold overwrite. cbn [String.length]. rewrite Nat.sub_0_l.
  destruct (String.length s); simpl; apply append_nil_r.
Qed.


Lemma universal_newlines_no_cr (s : string) :
  no_cr s -> universal_newlines s = s.
Proof.
  unfold no_cr. induction s as [| c s IH]; [reflexivity |].
  cbn [occurs universal_newlines]. rewrite (Ascii.eqb_sym "013" c).
  destruct (Ascii.eqb c "013"); [discriminate |].
  intros Hs. now rewrite IH.
Qed.


(** Writing with mode w, where the path can be opened, leaves exactly
    the content at the path. *)
Lemma write_file_w path content w :
  writable_at (fs w) path ->
  write_file path content "w" w =
    (Ret [("success", VBool true)], set_fs w (<[path := File content]> (fs w))).
Proof.
  unfold writable_at, write_file, try_except, bind, py_with, ret. cbn.
  unfold open_file. cbn.
  destruct (fs w !! path) as [[c |] |] eqn:Hp; cbn.
  - intros _. unfold write_text. cbn. rewrite lookup_insert_eq. cbn.
    rewrite overwrite_empty, insert_insert_eq. reflexivity.
  - intros [].
  - intros [Hpar Hne]. rewrite Hpar.
    destruct (String.eqb_spec path EmptyString) as [-> | _]; [congruence |].
    unfold write_text. cbn. rewrite lookup_insert_eq. cbn.
    rewrite overwrite_empty, insert_insert_eq. reflexivity.
Qed.

(** Where writing with mode w cannot open the path, it reports failure. *)
Lemma write_file_w_fails path content w :
  ~ writable_at (fs w) path ->
  exists msg, write_file path content "w" w =
    (Ret [("success", VBool false); ("error", VStr msg)], w).
Proof.
  unfold writable_at, write_file, try_except, bind, py_with, ret. cbn.
  unfold open_file. cbn.
  destruct (fs w !! path) as [[c |] |] eqn:Hp; cbn.
  - intros H. now destruct H.
  - intros _. eauto.
  - destruct (parent_error (fs w) path) as [ex |]; [eauto |].
    destruct (String.eqb_spec path EmptyString) as [-> | Hne]; [eauto |].
    intros H. destruct H. now split.
Qed.

Lemma append_file_existing path s c w :
  fs w !! path = Some (File c) ->
  append_file path s w =
    (Ret [("success", VBool true)], set_fs w (<[path := File (c +:+ s)]> (fs w))).
Proof.
  intros Hp. unfold append_file, write_file, try_except, bind, py_with, ret. cbn.
  unfold open_file. cbn. rewrite Hp. cbn.
  unfold write_text. cbn. rewrite Hp. reflexivity.
Qed.

Lemma read_file_existing path c w :
  fs w !! path = Some (File c) ->
  read_file path w =
    (Ret [("content", VStr (universal_newlines c)); ("success", VBool true)], w).
Proof.
  intros Hp. unfold read_file, try_except, bind, py_with, ret. cbn.
  unfold open_file. cbn. rewrite Hp. cbn.
  unfold read_all. cbn. rewrite Hp. reflexivity.
Qed.

Lemma writable_at_dec m path : {writable_at m path} + {~ writable_at m path}.
Proof.
  unfold writable_at. destruct (m !! path) as [[c |] |].
  - now left.
  - right. tauto.
  - destruct (parent_error m path) as [ex |].
    + right. intros [H _]. discriminate.
    + destruct (String.eqb_spec path EmptyString) as [-> | Hne].
      * right. intros [_ H]. now apply H.
      * left. now split.
Qed.

Lemma write_file_w_inv path content w e w1 :
  write_file path content "w" w = (Ret e, w1) ->
  success_of e = Some (VBool true) ->
  w1 = set_fs w (<[path := File content]> (fs w)).
Proof.
  intros Hw Hs. destruct (writable_at_dec (fs w) path) as [Hok | Hno].
  - rewrite (write_file_w _ _ _ Hok) in Hw. now injection Hw as _ <-.
  - destruct (write_file_w_fails path content w Hno) as (msg & Hf).
    rewrite Hf in Hw. injection Hw as <- _. discriminate.
Qed.

Lemma append_assoc (a b c : string) : (a +:+ b) +:+ c = a +:+ (b +:+ c).
Proof.
  induction a as [| x a IH]; [reflexivity |].
  now rewrite !append_cons, IH.
Qed.









(** Appending where neither the plan nor its directory is there: the
    header cannot be written, the chunk cannot be appended, nothing is
    created. *)
Lemma append_to_project_plan_unprepared s w :
  fs w !! plan_file = None ->
  fs w !! plan_dir = None ->
  exists msg,
    append_to_project_plan s w =
      (Ret [("success", VBool false); ("error", VStr msg)], w).
Proof.
  intros Hp Hd. unfold append_to_project_plan, bind.
  cbn [path_exists posix_host]. rewrite Hp.
  rewrite bool_decide_eq_false_2 by (intros [x Hx]; discriminate).
  cbn [negb os_getcwd posix_host].
  assert (Hpar : parent_error (fs w) plan_file = Some (ENOENT plan_file)).
  { unfold parent_error. change (split_last_slash plan_file)
      with (Some (plan_dir, "action_plan.md")).
    change plan_dir with "project_plan" at 1. cbv iota beta.
    change "project_plan" with plan_dir. now rewrite Hd. }
  assert (Hno : ~ writable_at (fs w) plan_file).
  { unfold writable_at. rewrite Hp, Hpar. intros [H _]. discriminate. }
  destruct (write_file_w_fails plan_file (plan_header (cwd w)) w Hno) as (m1 & ->).
  cbn [ret]. unfold append_file, write_file, try_except, bind, py_with, ret.
  cbn. unfold open_file. cbn. rewrite Hp, Hpar. eauto.
Qed.

End PosixFacts.

(** ** Claims on the file-system machine *)

Import Posix Scenario PosixFacts.

(** C1.  [create_plan] lets a failure of its directory creation leave as
    an exception: with a regular file named project_plan in the working
    directory, [Path.mkdir] raises FileExistsError and no envelope is
    returned; [create_dir], which guards the same kind of call, returns a
    failure envelope there. *)
Theorem create_plan_raises_where_create_dir_reports :
  create_plan "Step 1" blocked =
    (Raise (Exn "FileExistsError" "[Errno 17] File exists: 'project_plan'"),
     blocked) /\
  create_dir "project_plan" blocked =
    (Ret [("success", VBool false);
          ("error", VStr "[Errno 17] File exists: 'project_plan'")],
     blocked).
Proof. split; reflexivity. Qed.

(** X1.  Every library function other than the two plan writers returns
    an envelope on every machine and every input: none of them raises. *)
Lemma guarded_functions_return {W : Type} `{HostW : Host W} (w : W) :
  (forall c, exists e w', run_command c w = (Ret e, w')) /\
  (forall p, exists e w', read_file p w = (Ret e, w')) /\
  (forall p c m, exists e w', write_file p c m w = (Ret e, w')) /\
  (forall p c, exists e w', append_file p c w = (Ret e, w')) /\
  (forall q, exists e w', web_search q w = (Ret e, w')) /\
  (forall u, exists e w', web_fetch u w = (Ret e, w')) /\
  (exists e w', read_project_plan w = (Ret e, w')) /\
  (forall d, exists e w', list_directory d w = (Ret e, w')) /\
  (forall p, exists e w', get_file_info p w = (Ret e, w')) /\
  (forall p, exists e w', create_directory p w = (Ret e, w')).
Proof.
  repeat split; intros; apply try_except_returns.
Qed.

(** C2, as stated, fails: the envelope of [execute_command] has no
    success key, when the command runs and when it cannot be started. *)
Lemma execute_command_has_no_success_field :
  (exists e w', run_tool (ExecuteCommand "exit 7") fresh = (Ret e, w') /\
                success_of e = None) /\
  (exists e w', run_tool (ExecuteCommand "exit 7") spawn_fails = (Ret e, w') /\
                success_of e = None).
Proof. split; eexists; eexists; (split; [reflexivity | reflexivity]). Qed.

Lemma tool_success_field_witness :
  run_tool ReadPlan fresh =
    (Ret [("content", VStr EmptyString);
          ("error", VStr "[Errno 2] No such file or directory: 'project_plan/action_plan.md'");
          ("success", VBool false)], fresh) /\
  exists b,
    success_of
      [("content", VStr EmptyString);
       ("error", VStr "[Errno 2] No such file or directory: 'project_plan/action_plan.md'");
       ("success", VBool false)] = Some (VBool b).
Proof.
  split; [reflexivity |].
  exact (tool_success_field ReadPlan fresh _ fresh eq_refl).
Defined.



(** C6.  On a fresh working directory, where neither the plan nor its
    directory exists, [append_plan] creates nothing and returns a
    failure envelope. *)
Theorem append_plan_fails_on_fresh :
  fs fresh !! plan_file = None /\
  append_plan "Step 2" fresh =
    (Ret [("success", VBool false);
          ("error",
           VStr "[Errno 2] No such file or directory: 'project_plan/action_plan.md'")],
     fresh).
Proof. split; reflexivity. Qed.

Lemma execute_command_exit_code_witness :
  execute_command "exit 7" fresh =
    (Ret [("stdout", VStr EmptyString); ("stderr", VStr EmptyString);
          ("exit_code", VInt 7)], fresh) /\
  execute_command "exit 7" spawn_fails =
    (Ret [("stdout", VStr EmptyString);
          ("stderr", VStr "[Errno 12] Cannot allocate memory");
          ("exit_code", VInt 1)], spawn_fails).
Proof.
  split.
  - exact (proj1 (execute_command_exit_code "exit 7" fresh)
             {| cp_stdout := EmptyString; cp_stderr := EmptyString;
                cp_returncode := 7 |} fresh eq_refl).
  - exact (proj2 (execute_command_exit_code "exit 7" spawn_fails)
             (Exn "OSError" "[Errno 12] Cannot allocate memory")
             spawn_fails eq_refl).
Defined.

(** C8, as stated, fails: with both credentials absent the request is
    sent with empty ones, the provider answers 403, and [search_web]
    returns the body under results with success true and no error key. *)
Lemma search_web_without_credentials_succeeds :
  environ fresh !! "GOOGLE_API_KEY" = None /\
  environ fresh !! "GOOGLE_SEARCH_ENGINE_ID" = None /\
  search_web "khepri" fresh =
    (Ret [("results", VStr "{ error: { code: 403 } }");
          ("success", VBool true)], fresh).
Proof. repeat split. Qed.

Lemma search_web_outcomes_witness :
  search_web "khepri" offline =
    (Ret [("results", VStr EmptyString);
          ("error",
           VStr "Failed to resolve https://www.googleapis.com/customsearch/v1");
          ("success", VBool false)], offline).
Proof.
  exact (proj2 (search_web_outcomes "khepri" offline)
           (Exn "ConnectionError"
              "Failed to resolve https://www.googleapis.com/customsearch/v1")
           offline eq_refl).
Defined.

Lemma error_key_iff_failure_witness :
  create_project_plan "Step 1" fresh =
    (Ret [("success", VBool true)], with_plan fresh "Step 1") /\
  flagged [("success", VBool true)].
Proof.
  split; [reflexivity |].
  destruct (@error_key_iff_failure world posix_host)
    as (_ & _ & _ & _ & _ & _ & _ & _ & _ & Hcreate & _).
  exact (Hcreate "Step 1" fresh _ _ eq_refl).
Defined.

(** * Further properties *)

(** ** On any machine *)

Section MoreLibrary.
Context {W : Type} `{HostW : Host W}.

(** X2.  [create_project_plan] raises exactly when the directory
    creation or the lookup of the working directory raises, with that
    exception; otherwise it is the guarded write of header and content to
    the plan file, which returns an envelope. *)
Theorem create_project_plan_escapes (plan_content : string) (w : W) :
  match path_mkdir plan_dir w with
  | (Raise ex, w1) => create_project_plan plan_content w = (Raise ex, w1)
  | (Ret _, w1) =>
      match os_getcwd w1 with
      | (Raise ex, w2) => create_project_plan plan_content w = (Raise ex, w2)
      | (Ret d, w2) =>
          create_project_plan plan_content w =
            write_file plan_file (plan_header d +:+ plan_content) "w" w2 /\
          exists e w3, create_project_plan plan_content w = (Ret e, w3)
      end
  end.
Proof.
  unfold create_project_plan, bind.
  destruct (path_mkdir plan_dir w) as [[u | ex] w1]; [| reflexivity].
  destruct (os_getcwd w1) as [[d | ex] w2]; [| reflexivity].
  split; [reflexivity | apply try_except_returns].
Qed.

(** X3.  [append_to_project_plan] raises exactly when the existence test
    raises, or the file is absent and the lookup of the working directory
    raises.  Where the file is absent the header write is attempted and
    its envelope dropped: the result is that of the append alone, made
    after the attempt, whether the header was written or not. *)
Theorem append_to_project_plan_escapes (additional_content : string) (w : W) :
  match path_exists plan_file w with
  | (Raise ex, w1) => append_to_project_plan additional_content w = (Raise ex, w1)
  | (Ret true, w1) =>
      append_to_project_plan additional_content w =
        append_file plan_file (LF +:+ additional_content) w1
  | (Ret false, w1) =>
      match os_getcwd w1 with
      | (Raise ex, w2) =>
          append_to_project_plan additional_content w = (Raise ex, w2)
      | (Ret d, w2) =>
          exists e0 w3,
            write_file plan_file (plan_header d) "w" w2 = (Ret e0, w3) /\
            append_to_project_plan additional_content w =
              append_file plan_file (LF +:+ additional_content) w3
      end
  end.
Proof.
  unfold append_to_project_plan, bind.
  destruct (path_exists plan_file w) as [[[|] | ex] w1]; cbn [negb ret];
    [reflexivity | | reflexivity].
  destruct (os_getcwd w1) as [[d | ex] w2]; [| reflexivity].
  destruct (try_except_returns
              (f <- py_open plan_file "w" ;;
               py_with f (f_write f (plan_header d)) ;;;
               ret [("success", VBool true)])
              (fun e => [("success", VBool false); ("error", VStr (exn_msg e))])
              w2) as (e0 & w3 & He0).
  change (write_file plan_file (plan_header d) "w" w2 = (Ret e0, w3)) in He0.
  exists e0, w3. split; [exact He0 |]. now rewrite He0.
Qed.

(** X4.  An envelope of a function with a payload either reports success
    and has the payload and the success flag as its only keys, or is
    exactly the payload key with its empty value, the error message and
    success false. *)
Theorem failure_payload_is_empty (w : W) (e : dict) (w' : W) :
  (forall p, read_file p w = (Ret e, w') ->
     (success_of e = Some (VBool true) /\ dict_keys e = ["content"; "success"]) \/
     exists msg, e = [("content", VStr EmptyString); ("error", VStr msg);
                      ("success", VBool false)]) /\
  (forall q, web_search q w = (Ret e, w') ->
     (success_of e = Some (VBool true) /\ dict_keys e = ["results"; "success"]) \/
     exists msg, e = [("results", VStr EmptyString); ("error", VStr msg);
                      ("success", VBool false)]) /\
  (forall u, web_fetch u w = (Ret e, w') ->
     (success_of e = Some (VBool true) /\ dict_keys e = ["content"; "success"]) \/
     exists msg, e = [("content", VStr EmptyString); ("error", VStr msg);
                      ("success", VBool false)]) /\
  (forall d, list_directory d w = (Ret e, w') ->
     (success_of e = Some (VBool true) /\ dict_keys e = ["contents"; "success"]) \/
     exists msg, e = [("contents", VList []); ("error", VStr msg);
                      ("success", VBool false)]) /\
  (forall p, get_file_info p w = (Ret e, w') ->
     (success_of e = Some (VBool true) /\ dict_keys e = ["info"; "success"]) \/
     exists msg, e = [("info", VDict []); ("error", VStr msg);
                      ("success", VBool false)]).
Proof.
  repeat split; intros x Hr.
  - unfold read_file, try_except, bind, ret in Hr.
    destruct (py_open x "r" w) as [[f | ex] w1].
    + destruct (py_with f (f_read f) w1) as [[c | ex] w2];
        injection Hr as <- _; [left; split; reflexivity | right; eauto].
    + injection Hr as <- _. right; eauto.
  - unfold web_search, environ_get_default, try_except, bind, ret in Hr.
    destruct (requests_get _ _ w) as [[r | ex] w1];
      injection Hr as <- _; [left; split; reflexivity | right; eauto].
  - unfold web_fetch, try_except, bind, ret in Hr.
    destruct (requests_get x [] w) as [[r | ex] w1];
      injection Hr as <- _; [left; split; reflexivity | right; eauto].
  - unfold list_directory, try_except, bind, ret in Hr.
    destruct (os_listdir x w) as [[r | ex] w1];
      injection Hr as <- _; [left; split; reflexivity | right; eauto].
  - unfold get_file_info, try_except, bind, ret in Hr.
    destruct (os_stat x w) as [[r | ex] w1];
      injection Hr as <- _; [left; split; reflexivity | right; eauto].
Qed.

End MoreLibrary.

(** ** On the file-system machine *)

Module MoreFacts.
Import Posix Scenario Layout PosixFacts.

Lemma append_nil_l (s : string) : EmptyString +:+ s = s.
Proof. reflexivity. Qed.

Lemma append_file_absent path s w :
  fs w !! path = None ->
  parent_error (fs w) path = None ->
  path <> EmptyString ->
  append_file path s w =
    (Ret [("success", VBool true)], set_fs w (<[path := File s]> (fs w))).
Proof.
  intros Hp Hpar Hne.
  unfold append_file, write_file, try_except, bind, py_with, ret. cbn.
  unfold open_file. cbn. rewrite Hp, Hpar.
  destruct (String.eqb_spec path EmptyString) as [-> | _]; [congruence |].
  unfold write_text. cbn. rewrite lookup_insert_eq. cbn.
  now rewrite insert_insert_eq.
Qed.

End MoreFacts.

Import Layout MoreFacts.

(** X8.  [write_file] with mode r writes nothing: it reports failure and
    leaves the state as it was, whether the path holds a file, a
    directory or nothing. *)
Theorem write_file_mode_r_fails (path content : string) (w : world) :
  exists msg,
    write_file path content "r" w =
      (Ret [("success", VBool false); ("error", VStr msg)], w).
Proof.
  unfold write_file, try_except, bind, py_with, ret. cbn.
  unfold open_file. cbn.
  destruct (fs w !! path) as [[c |] |]; cbn; eauto.
  destruct (parent_error (fs w) path); eauto.
Qed.

Module DirectoryFacts.
Import Posix Scenario Layout PosixFacts.

Lemma is_dir_true m path : is_dir m path = true <-> m !! path = Some Dir.
Proof.
  unfold is_dir. destruct (m !! path) as [[c |] |]; split; congruence.
Qed.

(** Where the path is free, [os.mkdir] does not fail with FileExistsError. *)
Lemma mkdir1_inl_free m path ex :
  mkdir1 m path = inl ex -> m !! path = None ->
  String.eqb (exn_type ex) "FileExistsError" = false.
Proof.
  unfold mkdir1, parent_error. intros H Hp. rewrite Hp in H.
  destruct (split_last_slash path) as [[[| c d] b] |].
  - destruct (String.eqb path EmptyString); [| discriminate].
    now injection H as <-.
  - destruct (m !! String c d) as [[x |] |].
    + now injection H as <-.
    + destruct (String.eqb path EmptyString); [| discriminate].
      now injection H as <-.
    + now injection H as <-.
  - destruct (String.eqb path EmptyString); [| discriminate].
    now injection H as <-.
Qed.

(** The last step of [os.makedirs]: the directory itself. *)
Lemma finish_cases name (m1 : gmap string node) r m2 :
  match mkdir1 m1 name with
  | inr m => (Ret tt, m)
  | inl e => if is_dir m1 name then (Ret tt, m1) else (Raise e, m1)
  end = (r, m2) ->
  m1 ⊆ m2 /\
  (r = Ret tt -> m2 !! name = Some Dir) /\
  (forall e, r = Raise e ->
     m2 !! name = None -> String.eqb (exn_type e) "FileExistsError" = false).
Proof.
  destruct (mkdir1 m1 name) as [e | m] eqn:Hm.
  - destruct (is_dir m1 name) eqn:Hd; intros [= <- <-].
    + split; [reflexivity | split; [| discriminate]].
      intros _. now apply is_dir_true.
    + split; [reflexivity | split; [discriminate |]].
      intros e' [= <-] Hfree. now apply (mkdir1_inl_free m1 name).
  - intros [= <- <-]. unfold mkdir1 in Hm.
    destruct (m1 !! name) eqn:Hp; [discriminate |].
    destruct (parent_error m1 name); [discriminate |].
    destruct (String.eqb name EmptyString); [discriminate |].
    injection Hm as <-.
    split; [now apply insert_subseteq | split; [| discriminate]].
    intros _. apply lookup_insert_eq.
Qed.

(** The steps before it: the directories above. *)
Lemma above_cases heads (m : gmap string node) ra ma :
  match heads with
  | head :: _ =>
      if bool_decide (is_Some (m !! head)) then (Ret tt, m)
      else match makedirs_chain heads m with
           | (Raise e, m') =>
               if String.eqb (exn_type e) "FileExistsError"
               then (Ret tt, m') else (Raise e, m')
           | done => done
           end
  | [] => (Ret tt, m)
  end = (ra, ma) ->
  (ra = Ret tt /\ ma = m /\
   forall head rest, heads = head :: rest -> is_Some (m !! head)) \/
  (exists head rest r',
     heads = head :: rest /\ makedirs_chain heads m = (r', ma) /\
     match r' with
     | Ret _ => ra = Ret tt
     | Raise e =>
         if String.eqb (exn_type e) "FileExistsError"
         then ra = Ret tt else ra = Raise e
     end).
Proof.
  destruct heads as [| head rest].
  - intros [= <- <-]. left. split; [reflexivity | split; [reflexivity |]].
    discriminate.
  - destruct (bool_decide (is_Some (m !! head))) eqn:Hb.
    + intros [= <- <-]. left. split; [reflexivity | split; [reflexivity |]].
      intros h r [= <- _]. apply bool_decide_eq_true in Hb. exact Hb.
    + destruct (makedirs_chain (head :: rest) m) as [[[] | e] m'] eqn:Hrec.
      * intros [= <- <-]. right. exists head, rest, (Ret tt). auto.
      * intros H. right. exists head, rest, (Raise e).
        destruct (String.eqb (exn_type e) "FileExistsError") eqn:He;
          injection H as <- <-; rewrite ?He; auto.
Qed.

Lemma makedirs_chain_cons name heads m :
  makedirs_chain (name :: heads) m =
  match
    match heads with
    | head :: _ =>
        if bool_decide (is_Some (m !! head)) then (Ret tt, m)
        else match makedirs_chain heads m with
             | (Raise e, m') =>
                 if String.eqb (exn_type e) "FileExistsError"
                 then (Ret tt, m') else (Raise e, m')
             | done => done
             end
    | [] => (Ret tt, m)
    end
  with
  | (Raise e, m1) => (Raise e, m1)
  | (Ret _, m1) =>
      match mkdir1 m1 name with
      | inr m2 => (Ret tt, m2)
      | inl e => if is_dir m1 name then (Ret tt, m1) else (Raise e, m1)
      end
  end.
Proof. destruct heads; reflexivity. Qed.

(** [os.makedirs] only adds. *)
Lemma makedirs_chain_subseteq names :
  forall m r m', makedirs_chain names m = (r, m') -> m ⊆ m'.
Proof.
  induction names as [| name heads IH]; intros m r m' H.
  - now injection H as _ <-.
  - rewrite makedirs_chain_cons in H.
    match type of H with
    | match ?a with _ => _ end = _ => destruct a as [[u | e] ma] eqn:Ha
    end.
    + apply finish_cases in H as [Hsub _].
      apply above_cases in Ha as [(_ & -> & _) | (h & t & r' & _ & Hrec & _)];
        [exact Hsub |].
      etrans; [eapply IH; exact Hrec | exact Hsub].
    + injection H as _ <-.
      apply above_cases in Ha as [(_ & -> & _) | (h & t & r' & _ & Hrec & _)];
        [reflexivity | eapply IH; exact Hrec].
Qed.

Lemma makedirs_chain_makes name heads m m1 :
  makedirs_chain (name :: heads) m = (Ret tt, m1) -> m1 !! name = Some Dir.
Proof.
  rewrite makedirs_chain_cons.
  match goal with
  | |- match ?a with _ => _ end = _ -> _ => destruct a as [[u | e] ma]
  end; [| discriminate].
  intros H. apply finish_cases in H as (_ & Hd & _). now apply Hd.
Qed.

Lemma makedirs_chain_raise_free name heads m e m' :
  makedirs_chain (name :: heads) m = (Raise e, m') ->
  m' !! name = None ->
  String.eqb (exn_type e) "FileExistsError" = false.
Proof.
  rewrite makedirs_chain_cons.
  match goal with
  | |- match ?a with _ => _ end = _ -> _ => destruct a as [[u | e'] ma] eqn:Ha
  end.
  - intros H Hfree. apply finish_cases in H as (_ & _ & Hr). now apply Hr.
  - intros [= <- <-] _.
    apply above_cases in Ha as [(Hra & _) | (h & t & r' & _ & _ & Hr)];
      [discriminate |].
    destruct r' as [[] | e2]; [discriminate |].
    destruct (String.eqb (exn_type e2) "FileExistsError") eqn:He;
      [discriminate | now injection Hr as <-].
Qed.

Lemma makedirs_chain_head name head rest m m1 :
  makedirs_chain (name :: head :: rest) m = (Ret tt, m1) ->
  is_Some (m1 !! head).
Proof.
  rewrite makedirs_chain_cons.
  match goal with
  | |- match ?a with _ => _ end = _ -> _ => destruct a as [[u | e'] ma] eqn:Ha
  end; [| discriminate].
  intros H. apply finish_cases in H as (Hsub & _ & _).
  apply (above_cases (head :: rest)) in Ha
    as [(_ & -> & Hh) | (h & t & r' & Heq & Hrec & Hr)].
  - eapply lookup_weaken_is_Some; [apply (Hh head rest eq_refl) | exact Hsub].
  - injection Heq as <- <-.
    eapply lookup_weaken_is_Some; [| exact Hsub].
    destruct r' as [[] | e2].
    + rewrite (makedirs_chain_makes _ _ _ _ Hrec). eauto.
    + destruct (String.eqb (exn_type e2) "FileExistsError") eqn:He;
        [| discriminate].
      destruct (ma !! head) eqn:Hl; [eauto |].
      rewrite (makedirs_chain_raise_free _ _ _ _ _ Hrec Hl) in He.
      discriminate.
Qed.

Lemma makedirs_chain_again name heads m m1 :
  makedirs_chain (name :: heads) m = (Ret tt, m1) ->
  makedirs_chain (name :: heads) m1 = (Ret tt, m1).
Proof.
  intros H. pose proof (makedirs_chain_makes _ _ _ _ H) as Hd.
  rewrite makedirs_chain_cons.
  assert (Hdone :
    match mkdir1 m1 name with
    | inr m2 => (Ret tt, m2)
    | inl e => if is_dir m1 name then (Ret tt, m1) else (Raise e, m1)
    end = (Ret tt, m1)).
  { unfold mkdir1, is_dir. now rewrite Hd. }
  destruct heads as [| head rest]; [exact Hdone |].
  rewrite bool_decide_eq_true_2 by (eapply makedirs_chain_head; exact H).
  exact Hdone.
Qed.

Lemma chain_cons path :
  path <> EmptyString -> exists heads, chain path = path :: heads.
Proof.
  unfold chain. destruct path as [| c rest]; [congruence |].
  intros _. cbn [String.length chain_fuel]. eauto.
Qed.

End DirectoryFacts.

Module ListingFacts.
Import Posix Scenario Layout PosixFacts.






End ListingFacts.

Import DirectoryFacts ListingFacts.

(** X10.  A [create_directory] that reports success leaves a directory
    at the path and everything that was there as it was, and a second call
    right after it reports success again and changes nothing. *)
Theorem create_directory_idempotent (directory_path : string) (w : world) e w1 :
  directory_path <> EmptyString ->
  create_directory directory_path w = (Ret e, w1) ->
  success_of e = Some (VBool true) ->
  is_dir (fs w1) directory_path = true /\
  fs w ⊆ fs w1 /\
  create_directory directory_path w1 = (Ret [("success", VBool true)], w1).
Proof.
  intros Hne Hc Hs. destruct (chain_cons _ Hne) as (heads & Hch).
  unfold create_directory, try_except, bind, ret in *.
  cbn [os_makedirs posix_host] in *. unfold makedirs in *. rewrite Hch in *.
  destruct (makedirs_chain (directory_path :: heads) (fs w)) as [[[] | ex] m1] eqn:Hm.
  - injection Hc as _ <-. cbn [fs set_fs].
    split; [apply is_dir_true; eapply makedirs_chain_makes; exact Hm |].
    split; [eapply makedirs_chain_subseteq; exact Hm |].
    now rewrite (makedirs_chain_again _ _ _ _ Hm).
  - injection Hc as <- _. discriminate.
Qed.

Lemma create_directory_idempotent_witness :
  create_directory "a/b/c"
    (set_fs fresh {[ "a" := Dir; "a/b" := Dir; "a/b/c" := Dir ]}) =
  (Ret [("success", VBool true)],
   set_fs fresh {[ "a" := Dir; "a/b" := Dir; "a/b/c" := Dir ]}).
Proof.
  refine (proj2 (proj2 (create_directory_idempotent "a/b/c" fresh
                          [("success", VBool true)] _ _ eq_refl eq_refl))).
  discriminate.
Defined.



Module PlanFacts.
Import Posix Scenario Layout PosixFacts DirectoryFacts.




End PlanFacts.

Import PlanFacts.







Lemma failure_payload_is_empty_witness :
  (success_of
     [("content", VStr EmptyString);
      ("error", VStr "[Errno 2] No such file or directory: 'missing.txt'");
      ("success", VBool false)] = Some (VBool true) /\
   dict_keys
     [("content", VStr EmptyString);
      ("error", VStr "[Errno 2] No such file or directory: 'missing.txt'");
      ("success", VBool false)] = ["content"; "success"]) \/
  exists msg,
    [("content", VStr EmptyString);
     ("error", VStr "[Errno 2] No such file or directory: 'missing.txt'");
     ("success", VBool false)] =
    [("content", VStr EmptyString); ("error", VStr msg); ("success", VBool false)].
Proof.
  exact (proj1 (failure_payload_is_empty fresh _ fresh) "missing.txt" eq_refl).
Defined.

(** X16.  [web_fetch] reports success for every response that arrives,
    whatever its status code, with the body as content; only an exception
    raised by the request is reported as failure, with its message. *)
Theorem web_fetch_outcomes {W : Type} `{HostW : Host W} (url : string) (w : W) :
  (forall r w', requests_get url [] w = (Ret r, w') ->
     web_fetch url w =
       (Ret [("content", VStr (text r)); ("success", VBool true)], w')) /\
  (forall ex w', requests_get url [] w = (Raise ex, w') ->
     web_fetch url w =
       (Ret [("content", VStr EmptyString);
             ("error", VStr (exn_msg ex));
             ("success", VBool false)], w')).
Proof.
  split; intros x w' Hget; unfold web_fetch, try_except, bind, ret;
    rewrite Hget; reflexivity.
Qed.

Lemma web_fetch_outcomes_witness :
  web_fetch "http://khepri.invalid/" fresh =
    (Ret [("content", VStr EmptyString);
          ("error", VStr "Failed to resolve http://khepri.invalid/");
          ("success", VBool false)], fresh).
Proof.
  exact (proj2 (web_fetch_outcomes "http://khepri.invalid/" fresh)
           (Exn "ConnectionError" "Failed to resolve http://khepri.invalid/")
           fresh eq_refl).
Defined.

(** ** On the machine with null devices and unreadable files *)

Module SpecialFacts.
Import Posix Scenario Layout PosixFacts MoreFacts Special.

Lemma set_base_id (w : Special.world) : set_base w (base w) = w.
Proof. now destruct w. Qed.

Lemma not_null (w : Special.world) path :
  path ∉ null_devices w -> is_null w path = false.
Proof. intros H. unfold is_null. now apply bool_decide_eq_false_2. Qed.

Lemma open_file_path path mode b h b' :
  open_file path mode b = (Ret h, b') -> h_path h = path.
Proof.
  unfold open_file. destruct (check_mode mode) as [e | o]; [discriminate |].
  destruct (fs b !! path) as [[c |] |].
  - destruct (creating o); [discriminate |].
    destruct (writing o); now intros [= <- _].
  - discriminate.
  - destruct (parent_error (fs b) path); [discriminate |].
    destruct (reading o || String.eqb path EmptyString); [discriminate |].
    now intros [= <- _].
Qed.

(** Away from the null devices, writing and appending are those of the
    file-system machine. *)
Lemma write_file_lift path content mode (w : Special.world) :
  path ∉ null_devices w ->
  mode = "w" \/ mode = "a" ->
  write_file path content mode w = lift (write_file path content mode) w.
Proof.
  intros Hn Hm. apply not_null in Hn.
  unfold write_file, try_except, bind, py_with, ret, lift.
  cbn [py_open f_write f_close special_host posix_host].
  unfold open_special.
  assert (Hopen :
    (match check_mode mode with
     | inl e => (Raise e, w)
     | inr o =>
         if is_null w path
         then if creating o then (Raise (EEXIST path), w)
              else (Ret (handle_of path o), w)
         else if (reading o || updating o)
                 && bool_decide (path ∈ unreadable w)
                 && is_file (fs (base w)) path
         then (Raise (EACCES path), w)
         else lift (open_file path mode) w
     end) = lift (open_file path mode) w).
  { destruct Hm as [-> | ->]; cbn; now rewrite Hn. }
  rewrite Hopen. unfold lift.
  destruct (open_file path mode (base w)) as [[h | e] b] eqn:Ho; [| reflexivity].
  apply open_file_path in Ho. unfold write_special.
  unfold is_null in *. cbn [null_devices set_base]. rewrite Ho, Hn.
  unfold lift. cbn [base set_base].
  destruct (write_text h content b) as [[[] | e] b2]; reflexivity.
Qed.

Lemma read_file_lift path (w : Special.world) :
  regular w path -> read_file path w = lift (read_file path) w.
Proof.
  intros [Hn Hu]. apply not_null in Hn.
  unfold read_file, try_except, bind, py_with, ret, lift.
  cbn [py_open f_read f_close special_host posix_host].
  assert (Hopen : open_special path "r" w = lift (open_file path "r") w).
  { unfold open_special. cbn. rewrite Hn.
    now rewrite (bool_decide_eq_false_2 _ Hu). }
  rewrite Hopen. unfold lift.
  destruct (open_file path "r" (base w)) as [[h | e] b] eqn:Ho; [| reflexivity].
  apply open_file_path in Ho. unfold read_special.
  unfold is_null in *. cbn [null_devices set_base]. rewrite Ho, Hn.
  unfold lift. cbn [base set_base].
  destruct (read_all h b) as [[c | e] b2]; reflexivity.
Qed.

Lemma get_file_info_lift path (w : Special.world) :
  path ∉ null_devices w ->
  get_file_info path w = lift (get_file_info path) w.
Proof.
  intros Hn. apply not_null in Hn.
  unfold get_file_info, try_except, bind, ret, lift.
  cbn [os_stat os_path_isdir os_path_isfile special_host posix_host].
  unfold stat_special. rewrite Hn. unfold lift.
  destruct (stat path (base w)) as [[st | e] b] eqn:Hs; [| reflexivity].
  assert (b = base w) as ->.
  { unfold stat in Hs. destruct (fs (base w) !! path) as [[c |] |];
      now injection Hs as _ <-. }
  unfold is_null in *. cbn [null_devices set_base base]. rewrite Hn.
  reflexivity.
Qed.

(** A write with mode w that reports success, away from the null
    devices, leaves the content at the path. *)
Lemma write_file_w_regular path content (w : Special.world) e w1 :
  path ∉ null_devices w ->
  write_file path content "w" w = (Ret e, w1) ->
  success_of e = Some (VBool true) ->
  w1 = set_base w (set_fs (base w) (<[path := File content]> (fs (base w)))).
Proof.
  intros Hn Hw Hs. rewrite (write_file_lift _ _ _ _ Hn (or_introl eq_refl)) in Hw.
  unfold lift in Hw.
  destruct (write_file path content "w" (base w)) as [r b] eqn:Hb.
  injection Hw as -> <-. now rewrite (write_file_w_inv _ _ _ _ _ Hb Hs).
Qed.

Lemma write_then_read_general path content (w : Special.world) e1 w1 :
  regular w path ->
  write_file path content "w" w = (Ret e1, w1) ->
  success_of e1 = Some (VBool true) ->
  read_file path w1 =
    (Ret [("content", VStr (universal_newlines content)); ("success", VBool true)],
     w1).
Proof.
  intros Hreg Hw Hs.
  rewrite (write_file_w_regular _ _ _ _ _ (proj1 Hreg) Hw Hs).
  rewrite read_file_lift by exact Hreg. unfold lift. cbn [base set_base].
  rewrite (read_file_existing path content); [reflexivity |].
  cbn [fs set_fs]. apply lookup_insert_eq.
Qed.

(** Appending where the path cannot be opened reports failure. *)
Lemma append_file_fails path s b :
  ~ writable_at (fs b) path ->
  exists msg, append_file path s b =
    (Ret [("success", VBool false); ("error", VStr msg)], b).
Proof.
  unfold writable_at, append_file, write_file, try_except, bind, py_with, ret. cbn.
  unfold open_file. cbn.
  destruct (fs b !! path) as [[c |] |] eqn:Hp; cbn.
  - intros H. now destruct H.
  - intros _. eauto.
  - destruct (parent_error (fs b) path) as [ex |]; [eauto |].
    destruct (String.eqb_spec path EmptyString) as [-> | Hne]; [eauto |].
    intros H. destruct H. now split.
Qed.

Lemma append_file_inv path s b e b1 :
  append_file path s b = (Ret e, b1) ->
  success_of e = Some (VBool true) ->
  b1 = set_fs b (<[path := File (content_at (fs b) path +:+ s)]> (fs b)).
Proof.
  intros Ha Hs. destruct (writable_at_dec (fs b) path) as [Hok | Hno].
  - unfold writable_at, content_at in *.
    destruct (fs b !! path) as [[c |] |] eqn:Hp.
    + rewrite (append_file_existing _ _ _ _ Hp) in Ha. now injection Ha as _ <-.
    + destruct Hok.
    + destruct Hok as [Hpar Hne].
      rewrite (append_file_absent _ _ _ Hp Hpar Hne) in Ha.
      now injection Ha as _ <-.
  - destruct (append_file_fails path s b Hno) as (msg & Hf).
    rewrite Hf in Ha. injection Ha as <- _. discriminate.
Qed.

End SpecialFacts.

Import SpecialFacts.

(** C4, as stated, fails: on a machine that has the null device, the
    write of hello to /dev/null reports success and the read of the same
    path that follows yields empty content. *)
Lemma null_device_write_then_read :
  write_file_content "/dev/null" "hello" "w" Special.with_null =
    (Ret [("success", VBool true)], Special.with_null) /\
  read_file_content "/dev/null" Special.with_null =
    (Ret [("content", VStr EmptyString); ("success", VBool true)],
     Special.with_null).
Proof. split; reflexivity. Qed.

(** C4, amended.  For every path that is neither a null device nor
    withheld from reading: a write of hello with mode w that reports
    success is followed by a read of the same path that yields hello as
    content. *)
Theorem write_then_read_hello_regular (path : string) (w : Special.world) e1 w1 :
  Special.regular w path ->
  write_file_content path "hello" "w" w = (Ret e1, w1) ->
  success_of e1 = Some (VBool true) ->
  read_file_content path w1 =
    (Ret [("content", VStr "hello"); ("success", VBool true)], w1).
Proof.
  intros Hreg Hw Hs. unfold write_file_content in Hw. unfold read_file_content.
  now rewrite (write_then_read_general _ _ _ _ _ Hreg Hw Hs).
Qed.

Lemma write_then_read_hello_regular_witness :
  read_file_content "note.txt"
    (Special.set_base Special.with_null
       (set_fs fresh {[ "note.txt" := File "hello" ]})) =
  (Ret [("content", VStr "hello"); ("success", VBool true)],
   Special.set_base Special.with_null
     (set_fs fresh {[ "note.txt" := File "hello" ]})).
Proof.
  apply (write_then_read_hello_regular "note.txt" Special.with_null
           [("success", VBool true)]).
  - split.
    + intros H. change ("note.txt" ∈ ({[ "/dev/null" ]} : gset string)) in H.
    apply elem_of_singleton in H. discriminate H.
    + apply not_elem_of_empty.
  - reflexivity.
  - reflexivity.
Defined.


(** C9, as stated, fails: run without arguments the program first prints
    the line Available functions:, which is not JSON, and the catalogue
    that follows names the library functions; the name of no registered
    tool is in it. *)
Lemma catalogue_is_not_of_the_tools :
  main_block ["main.py"] fresh =
    (Ret tt, set_stdout fresh ["Available functions:"; Printed.catalogue_text]) /\
  forall i : invocation, ~ In (tool_name i) (map fst functions).
Proof.
  split; [vm_compute; reflexivity |].
  intros i Hin. destruct i; cbn in Hin;
    repeat (destruct Hin as [Hin | Hin]; [discriminate Hin |]); exact Hin.
Qed.

(** C9, amended.  Run with arguments, the program joins them with single
    spaces, runs the command through [run_command], and prints its
    envelope as JSON indented by two: the three keys stdout, stderr and
    exit_code, one per line.  Run without arguments, it prints the line
    Available functions: and then the catalogue as JSON indented by two:
    one entry per library function, in the order of the source, with the
    function's own name and its stripped docstring as description. *)
Theorem standalone_prints (prog : string) (w : world) :
  (forall a args, exists out err rc w1,
     run_command (String.concat " " (a :: args)) w =
       (Ret [("stdout", VStr out); ("stderr", VStr err); ("exit_code", VInt rc)],
        w1) /\
     main_block (prog :: a :: args) w =
       (Ret tt, set_stdout w1 (stdout w1 ++ [Printed.envelope_text out err rc]))) /\
  main_block [prog] w =
    (Ret tt, set_stdout w (stdout w ++
               ["Available functions:"; Printed.catalogue_text])) /\
  main_block [prog; "frobnicate"; "--now"] fresh =
    (Ret tt, set_stdout fresh [Printed.not_found_text]) /\
  json_string Printed.escape_sample = Printed.escape_sample_text /\
  map fst functions =
    ["run_command"; "read_file"; "write_file"; "append_file"; "web_search";
     "web_fetch"; "create_project_plan"; "append_to_project_plan";
     "read_project_plan"; "list_directory"; "get_file_info";
     "create_directory"].
Proof.
  assert (Hjson : forall out err rc,
    json_dumps (VDict [("stdout", VStr out); ("stderr", VStr err);
                       ("exit_code", VInt rc)]) = Printed.envelope_text out err rc).
  { intros out err rc.
    unfold json_dumps, Printed.envelope_text, Printed.quoted, json_string.
    cbn [json_dumps_at map json_block String.concat spaces Nat.mul Nat.add].
    unfold json_string. rewrite !append_assoc. reflexivity. }
  split; [| split; [| split; [| split]]].
  - intros a args. unfold main_block.
    cbn [length Nat.ltb Nat.leb skipn]. unfold run_command, try_except, bind, ret.
    cbn [subprocess_run py_print posix_host].
    destruct (shell w (String.concat " " (a :: args)) (fs w)) as [[cp | ex] m];
      eexists _, _, _, _; (split; [reflexivity |]); now rewrite Hjson.
  - unfold main_block, bind. cbn [length Nat.ltb Nat.leb py_print posix_host].
    unfold set_stdout. cbn [stdout fs cwd environ shell http ftimes dir_size].
    rewrite <- app_assoc. cbn [app].
    replace get_functions_schema with Printed.catalogue_text
      by (vm_compute; reflexivity).
    reflexivity.
  - vm_compute. reflexivity.
  - vm_compute. reflexivity.
  - reflexivity.
Qed.

(** X5.  On a path that is neither a null device nor withheld from
    reading, whatever the content, a write with mode w that reports
    success is followed by a read of the same path that returns the
    content with every line end CR LF or CR turned into LF; a content
    without carriage return comes back unchanged. *)
Theorem write_then_read_regular (path content : string) (w : Special.world) e1 w1 :
  Special.regular w path ->
  write_file path content "w" w = (Ret e1, w1) ->
  success_of e1 = Some (VBool true) ->
  read_file path w1 =
    (Ret [("content", VStr (universal_newlines content)); ("success", VBool true)],
     w1) /\
  (no_cr content -> universal_newlines content = content).
Proof.
  intros Hreg Hw Hs. split; [| apply universal_newlines_no_cr].
  exact (write_then_read_general _ _ _ _ _ Hreg Hw Hs).
Qed.

Lemma write_then_read_regular_witness :
  read_file "note.txt" (Special.set_base Special.with_null with_note) =
    (Ret [("content", VStr ("alpha" +:+ LF +:+ "beta")); ("success", VBool true)],
     Special.set_base Special.with_null with_note).
Proof.
  refine (proj1 (write_then_read_regular "note.txt"
                   ("alpha" +:+ CR +:+ LF +:+ "beta")
                   Special.with_null [("success", VBool true)] _ _ eq_refl eq_refl)).
  split.
  - intros H. change ("note.txt" ∈ ({[ "/dev/null" ]} : gset string)) in H.
    apply elem_of_singleton in H. discriminate H.
  - apply not_elem_of_empty.
Defined.

(** X7.  On a path that is not a null device, an [append_file] that
    reports success has left at the path what the file held before
    followed by the new content (the new content alone if there was no
    file), and nothing else changed. *)
Theorem append_file_extends_regular (path s : string) (w : Special.world) e w1 :
  path ∉ Special.null_devices w ->
  append_file path s w = (Ret e, w1) ->
  success_of e = Some (VBool true) ->
  w1 = Special.set_base w
         (set_fs (Special.base w)
            (<[path := File (content_at (fs (Special.base w)) path +:+ s)]>
               (fs (Special.base w)))).
Proof.
  intros Hn Ha Hs. unfold append_file in Ha.
  rewrite (write_file_lift _ _ _ _ Hn (or_intror eq_refl)) in Ha.
  unfold Special.lift in Ha.
  destruct (write_file path s "a" (Special.base w)) as [r b] eqn:Hb.
  injection Ha as -> <-.
  now rewrite (append_file_inv path s (Special.base w) e b Hb Hs).
Qed.

Lemma append_file_extends_regular_witness :
  Special.set_base Special.with_null
    (set_fs with_note
       {[ "note.txt" := File ("alpha" +:+ CR +:+ LF +:+ "beta" +:+ "gamma") ]}) =
  Special.set_base (Special.set_base Special.with_null with_note)
    (set_fs with_note
       (<["note.txt" := File (content_at (fs with_note) "note.txt" +:+ "gamma")]>
          (fs with_note))).
Proof.
  apply (append_file_extends_regular "note.txt" "gamma"
           (Special.set_base Special.with_null with_note)
           [("success", VBool true)]).
  - intros H. change ("note.txt" ∈ ({[ "/dev/null" ]} : gset string)) in H.
    apply elem_of_singleton in H. discriminate H.
  - reflexivity.
  - reflexivity.
Defined.

(** X12.  On a path that is not a null device, after a write with mode w
    that reports success, [get_file_info] reports a regular file, not a
    directory, whose size is the number of bytes of the content in
    UTF-8. *)
Theorem file_info_after_write_regular (path content : string)
    (w : Special.world) e w1 :
  path ∉ Special.null_devices w ->
  write_file path content "w" w = (Ret e, w1) ->
  success_of e = Some (VBool true) ->
  get_file_info path w1 =
    (Ret [("info", VDict (file_info (Special.base w1) path content));
          ("success", VBool true)], w1).
Proof.
  intros Hn Hw Hs. rewrite (write_file_w_regular _ _ _ _ _ Hn Hw Hs).
  rewrite get_file_info_lift by exact Hn. unfold Special.lift.
  cbn [Special.base Special.set_base].
  unfold get_file_info, try_except, bind, ret, file_info.
  cbn [os_stat os_path_isdir os_path_isfile posix_host].
  unfold stat, is_dir, is_file. cbn [fs set_fs ftimes].
  rewrite lookup_insert_eq. cbn [st_size st_mtime st_ctime fs set_fs].
  now rewrite lookup_insert_eq.
Qed.

Lemma file_info_after_write_regular_witness :
  get_file_info "note.txt"
    (Special.set_base Special.with_null
       (set_fs fresh {[ "note.txt" := File "hello" ]})) =
    (Ret [("info",
           VDict [("size", VInt 5);
                  ("modified_time", VFloat "1700000000.5");
                  ("created_time", VFloat "1700000000.5");
                  ("is_directory", VBool false);
                  ("is_file", VBool true)]);
          ("success", VBool true)],
     Special.set_base Special.with_null
       (set_fs fresh {[ "note.txt" := File "hello" ]})).
Proof.
  refine (file_info_after_write_regular "note.txt" "hello" Special.with_null
            [("success", VBool true)] _ _ eq_refl eq_refl).
  intros H. change ("note.txt" ∈ ({[ "/dev/null" ]} : gset string)) in H.
    apply elem_of_singleton in H. discriminate H.
Defined.
